(** * restful.api: search descriptors, query building and request handlers

    A shallow embedding of [restful/api.py] (Python 2.7, Flask, Elixir /
    SQLAlchemy).  Python values are a small inductive type, exceptions are
    values of [pyexn], pure helpers return [result], and the request
    handlers run in a state-and-exception monad over the storage session.

    External collaborators are the methods of two classes: [Library] for
    [json] and [dateutil], [Storage] for the SQL engine behind Elixir
    queries and for [restful.model.get_or_create].  The theorems hold for
    every implementation of them; [Sample] gives one for the examples. *)

From Stdlib Require Import ZArith String Ascii List.
From stdpp Require Import base gmap strings list pretty.

Local Open Scope Z_scope.
Set Warnings "-register-all".

(** ** Python values *)

(** The values that reach this module: what [json.loads] produces, plus byte
    strings written in the source.  In Python 2 a string literal of the
    source is a [str] and every string decoded from JSON is a [unicode];
    both are kept apart because [isinstance(x, str)] tells them apart.
    JSON numbers are modelled as integers.  A [datetime] is identified by
    the text it was parsed from. *)
Inductive pyval : Type :=
| PNone
| PBool (b : bool)
| PInt (z : Z)
| PStr (s : string)
| PUnicode (s : string)
| PList (l : list pyval)
| PDict (d : list (string * pyval))
| PDatetime (text : string).

Definition pydict : Type := list (string * pyval).

(** Python exceptions raised inside the module or by its collaborators.
    [flask.abort] is not in this type: see [outcome]. *)
Inductive pyexn : Type :=
| NameError (msg : string)
| TypeError (msg : string)
| AttributeError (msg : string)
| KeyError (msg : string)
| ValueError (msg : string)
| OverflowError (msg : string)
| IllegalArgumentError (msg : string)
| NoResultFound
| MultipleResultsFound
| StorageError (msg : string).

Definition exn_message (e : pyexn) : string :=
  match e with
  | NameError m | TypeError m | AttributeError m | KeyError m
  | ValueError m | OverflowError m | IllegalArgumentError m
  | StorageError m => m
  | NoResultFound => "No row was found for one()"
  | MultipleResultsFound => "Multiple rows were found for one()"
  end.

(** Result of code that may raise. *)
Inductive result (A : Type) : Type :=
| Ok (a : A)
| Raise (e : pyexn).
Arguments Ok {A} a.
Arguments Raise {A} e.

Definition rbind {A B} (r : result A) (k : A -> result B) : result B :=
  match r with
  | Ok a => k a
  | Raise e => Raise e
  end.

Declare Scope result_scope.
Delimit Scope result_scope with result.
Notation "'let!' x ':=' r 'in' k" := (rbind r (fun x => k))
  (at level 10, x name, r at level 100, k at level 200) : result_scope.
Notation "'let!' ' p ':=' r 'in' k" := (rbind r (fun p => k))
  (at level 10, p strict pattern, r at level 100, k at level 200) : result_scope.
Notation "'do!' r 'in' k" := (rbind r (fun _ => k))
  (at level 10, r at level 100, k at level 200) : result_scope.

(** A [for] loop whose body may raise, collecting what the body appends. *)
Fixpoint for_each {A B} (body : A -> result B) (l : list A) : result (list B) :=
  match l with
  | [] => Ok []
  | x :: rest =>
      match body x with
      | Raise e => Raise e
      | Ok y =>
          match for_each body rest with
          | Raise e => Raise e
          | Ok ys => Ok (y :: ys)
          end
      end
  end.

(** A [for] loop that updates a local variable and may raise. *)
Fixpoint for_fold {A S} (body : S -> A -> result S) (l : list A) (s : S) : result S :=
  match l with
  | [] => Ok s
  | x :: rest =>
      match body s x with
      | Raise e => Raise e
      | Ok s' => for_fold body rest s'
      end
  end.

Definition nonempty {A} (l : list A) : bool :=
  match l with
  | [] => false
  | _ :: _ => true
  end.

(** ** Python primitives used by the module *)

Definition type_name (v : pyval) : string :=
  match v with
  | PNone => "NoneType"
  | PBool _ => "bool"
  | PInt _ => "int"
  | PStr _ => "str"
  | PUnicode _ => "unicode"
  | PList _ => "list"
  | PDict _ => "dict"
  | PDatetime _ => "datetime.datetime"
  end.

(** Truth value of an object in a condition. *)
Definition truthy (v : pyval) : bool :=
  match v with
  | PNone => false
  | PBool b => b
  | PInt z => negb (z =? 0)
  | PStr s | PUnicode s => negb (String.eqb s EmptyString)
  | PList l => nonempty l
  | PDict d => nonempty d
  | PDatetime _ => true
  end.

(** [a and b] and [a or b] return one of their operands. *)
Definition py_and (a b : pyval) : pyval := if truthy a then b else a.
Definition py_or (a b : pyval) : pyval := if truthy a then a else b.

(** [str] and [unicode] objects compare equal when they hold the same
    (ASCII) text. *)
Definition as_text (v : pyval) : option string :=
  match v with
  | PStr s | PUnicode s => Some s
  | _ => None
  end.

Definition eq_text (v : pyval) (s : string) : bool :=
  match as_text v with
  | Some t => String.eqb t s
  | None => false
  end.

Definition no_attribute {A} (v : pyval) (attr : string) : result A :=
  Raise (AttributeError ("'" +:+ type_name v +:+ "' object has no attribute '"
                         +:+ attr +:+ "'")).

(** [d.get(key)] and [d.get(key, default)] on a dictionary. *)
Fixpoint assoc (key : string) (d : pydict) : option pyval :=
  match d with
  | [] => None
  | (k, v) :: rest => if String.eqb k key then Some v else assoc key rest
  end.

Definition dict_get (d : pydict) (key : string) (default : pyval) : pyval :=
  match assoc key d with
  | Some v => v
  | None => default
  end.

(** [d.keys()]: each key once. *)
Fixpoint dict_keys (d : pydict) : list string :=
  match d with
  | [] => []
  | (k, _) :: rest =>
      k :: List.filter (fun k' => negb (String.eqb k' k)) (dict_keys rest)
  end.

Definition mem (s : string) (l : list string) : bool :=
  existsb (String.eqb s) l.

(** [obj.get(key, default)] on an arbitrary object: only dictionaries have
    the method. *)
Definition py_get (obj : pyval) (key : string) (default : pyval) : result pyval :=
  match obj with
  | PDict d => Ok (dict_get d key default)
  | _ => no_attribute obj "get"
  end.

(** [obj.keys()]. *)
Definition py_keys (obj : pyval) : result (list string) :=
  match obj with
  | PDict d => Ok (dict_keys d)
  | _ => no_attribute obj "keys"
  end.

Definition chars (s : string) : list string :=
  map (fun c => String c EmptyString) (list_ascii_of_string s).

(** Iterating over an object in a [for] loop or comprehension. *)
Definition py_iter (obj : pyval) : result (list pyval) :=
  match obj with
  | PList l => Ok l
  | PDict d => Ok (map PUnicode (dict_keys d))
  | PStr s => Ok (map PStr (chars s))
  | PUnicode s => Ok (map PUnicode (chars s))
  | _ => Raise (TypeError ("'" +:+ type_name obj +:+ "' object is not iterable"))
  end.

(** [len(obj)]. *)
Definition py_len (obj : pyval) : result Z :=
  match obj with
  | PList l => Ok (Z.of_nat (length l))
  | PDict d => Ok (Z.of_nat (length (dict_keys d)))
  | PStr s | PUnicode s => Ok (Z.of_nat (String.length s))
  | _ => Raise (TypeError ("object of type '" +:+ type_name obj +:+ "' has no len()"))
  end.

(** [needle in s] on strings: substring test. *)
Fixpoint substring_in (needle s : string) : bool :=
  String.prefix needle s ||
  match s with
  | EmptyString => false
  | String _ rest => substring_in needle rest
  end.

(** [key in obj] for a string literal [key] of the source. *)
Definition py_contains (key : string) (obj : pyval) : result bool :=
  match obj with
  | PDict d => Ok (mem key (dict_keys d))
  | PList l => Ok (existsb (fun v => eq_text v key) l)
  | PStr s | PUnicode s => Ok (substring_in key s)
  | _ => Raise (TypeError ("argument of type '" +:+ type_name obj +:+ "' is not iterable"))
  end.

(** [s.split(sep)] for a non-empty separator: non-overlapping occurrences,
    left to right.  [skip] counts the characters of a separator still to be
    passed over, [cur] is the piece being read. *)
Fixpoint split_go (sep : string) (skip : nat) (cur s : string) : list string :=
  match s with
  | EmptyString => [cur]
  | String c rest =>
      match skip with
      | S k => split_go sep k cur rest
      | O =>
          if String.prefix sep s
          then cur :: split_go sep (String.length sep - 1) EmptyString rest
          else split_go sep 0 (cur +:+ String c EmptyString) rest
      end
  end.

Definition split (sep s : string) : list string := split_go sep 0 EmptyString s.

(** [obj.split(sep)]: strings only; the pieces have the type of [obj]. *)
Definition py_split (obj : pyval) (sep : string) : result (list pyval) :=
  match obj with
  | PStr s => Ok (map PStr (split sep s))
  | PUnicode s => Ok (map PUnicode (split sep s))
  | _ => no_attribute obj "split"
  end.

(** ** Names of the module

    A bare name in a function body is looked up among the function's
    locals, then the module's globals, then the builtins.  The attributes of
    an enclosing class are not in scope inside its methods. *)

Definition module_globals : list string :=
  [ "namedtuple"; "json"; "parse_datetime"; "session"; "abort"; "Blueprint";
    "jsonify"; "make_response"; "request"; "MethodView";
    "MultipleResultsFound"; "NoResultFound"; "func"; "Date"; "DateTime";
    "get_or_create"; "__all__"; "OPERATORS"; "Function"; "OrderBy";
    "IllegalArgumentError"; "Filter"; "SearchParameters"; "search";
    "_evaluate_functions"; "QueryBuilder"; "create_query";
    "jsonify_status_code"; "API"; "APIManager" ].

Definition builtins : list string :=
  [ "None"; "True"; "False"; "Exception"; "KeyError"; "TypeError";
    "ValueError"; "OverflowError"; "AttributeError"; "NameError";
    "object"; "dict"; "list"; "set"; "frozenset"; "tuple"; "str"; "unicode";
    "int"; "len"; "zip"; "range"; "getattr"; "setattr"; "isinstance";
    "super"; "staticmethod"; "classmethod"; "property"; "type"; "id";
    "repr"; "iter"; "map"; "filter"; "sorted"; "min"; "max"; "sum" ].

Definition resolve_name (locals : list string) (name : string) : result unit :=
  if mem name locals || mem name module_globals || mem name builtins
  then Ok tt
  else Raise (NameError ("global name '" +:+ name +:+ "' is not defined")).

(** Attribute lookup on a class object of the module. *)
Definition class_attribute (cls : string) (attrs : list string) (name : string)
  : result unit :=
  if mem name attrs then Ok tt
  else Raise (AttributeError ("type object '" +:+ cls +:+ "' has no attribute '"
                              +:+ name +:+ "'")).

(** ** Entity classes and SQL expressions *)

Inductive coltype : Type := TDate | TDateTime | TOther.

(** What [get_columns()] maps a name to: a scalar column with its SQL type,
    or a relationship property with the name of the related entity class. *)
Inductive attrkind : Type :=
| Scalar (ty : coltype)
| Relation (target : string).

(** An Elixir entity class as the module uses it.  Class attributes other
    than the mapped columns and relations are not modelled. *)
Record Model : Type := mkModel {
  model_name : string;
  get_columns : list (string * attrkind);
  get_relations : list string
}.

Fixpoint column (name : string) (cols : list (string * attrkind)) : option attrkind :=
  match cols with
  | [] => None
  | (k, a) :: rest => if String.eqb k name then Some a else column name rest
  end.

(** [getattr(model, name)]: the instrumented attribute of that name. *)
Definition getattr_model (model : Model) (name : pyval) : result string :=
  match as_text name with
  | None => Raise (TypeError "getattr(): attribute name must be string")
  | Some s =>
      match column s (get_columns model) with
      | Some _ => Ok s
      | None =>
          Raise (AttributeError ("type object '" +:+ model_name model
                                 +:+ "' has no attribute '" +:+ s +:+ "'"))
      end
  end.

(** Second operand of an operator: a literal of the request, or another
    attribute of the model. *)
Inductive operand : Type :=
| Lit (v : pyval)
| Attr (name : string).

Inductive comparison : Type := CEq | CNe | CGt | CLt | CGe | CLe.

(** SQLAlchemy expressions built by the operator table, kept symbolic. *)
Inductive expr : Type :=
| Compare (c : comparison) (f : string) (a : operand)
| Like (f : string) (a : operand)
| In_ (f : string) (a : operand)
| NotIn (f : string) (a : operand)
| BoundMethod (f : string) (method : string)
| Has (f : string) (kw : string) (a : operand)
| Any_ (f : string) (kw : string) (a : operand).

Inductive direction : Type := Asc | Desc.

(** A composed, lazy query: the chain of calls made on [model.query]. *)
Inductive Query : Type :=
| QModel (name : string)
| QFilter (q : Query) (e : expr)
| QOrderBy (q : Query) (f : string) (d : direction)
| QLimit (q : Query) (n : pyval)
| QOffset (q : Query) (n : pyval).

(** The keyword of [f.has] and [f.any] is built from [fn]: a keyword must
    be a string. *)
Definition keyword (fn : pyval) : result string :=
  match as_text fn with
  | Some s => Ok s
  | None => Raise (TypeError "keywords must be strings")
  end.

Definition operator_fn : Type := string -> operand -> pyval -> result expr.

Definition OPERATORS : list (string * operator_fn) :=
  [ ("==", fun f a fn => Ok (Compare CEq f a));
    ("eq", fun f a fn => Ok (Compare CEq f a));
    ("equals", fun f a fn => Ok (Compare CEq f a));
    ("equal_to", fun f a fn => Ok (Compare CEq f a));
    ("!=", fun f a fn => Ok (Compare CNe f a));
    ("neq", fun f a fn => Ok (Compare CNe f a));
    ("not_equal_to", fun f a fn => Ok (Compare CNe f a));
    ("does_not_equal", fun f a fn => Ok (Compare CNe f a));
    (">", fun f a fn => Ok (Compare CGt f a));
    ("gt", fun f a fn => Ok (Compare CGt f a));
    ("<", fun f a fn => Ok (Compare CLt f a));
    ("lt", fun f a fn => Ok (Compare CLt f a));
    (">=", fun f a fn => Ok (Compare CGe f a));
    ("gte", fun f a fn => Ok (Compare CGe f a));
    ("<=", fun f a fn => Ok (Compare CLe f a));
    ("lte", fun f a fn => Ok (Compare CLe f a));
    ("like", fun f a fn => Ok (Like f a));
    ("in", fun f a fn => Ok (In_ f a));
    ("not_in", fun f a fn => Ok (NotIn f a));
    ("is_null", fun f a fn => Ok (Compare CEq f (Lit PNone)));
    ("is_not_null", fun f a fn => Ok (Compare CNe f (Lit PNone)));
    ("desc", fun f a fn => Ok (BoundMethod f "desc"));
    ("asc", fun f a fn => Ok (BoundMethod f "asc"));
    ("has", fun f a fn => (let! kw := keyword fn in Ok (Has f kw a))%result);
    ("any", fun f a fn => (let! kw := keyword fn in Ok (Any_ f kw a))%result) ].

Fixpoint registry_lookup (token : string) (table : list (string * operator_fn))
  : option operator_fn :=
  match table with
  | [] => None
  | (k, fn) :: rest => if String.eqb k token then Some fn else registry_lookup token rest
  end.

(** [token] is a key of the operator table. *)
Definition is_operator (token : pyval) : bool :=
  match as_text token with
  | Some s => match registry_lookup s OPERATORS with Some _ => true | None => false end
  | None => false
  end.

(** [OPERATORS.get(operator)]: the key is hashed first; a missing key gives
    [None]. *)
Definition OPERATORS_get (operator : pyval) : result (option operator_fn) :=
  match operator with
  | PList _ | PDict _ =>
      Raise (TypeError ("unhashable type: '" +:+ type_name operator +:+ "'"))
  | PStr s | PUnicode s => Ok (registry_lookup s OPERATORS)
  | _ => Ok None
  end.

(** Calling the object returned by [OPERATORS.get]. *)
Definition call_operator (fn : option operator_fn) (f : string) (a : operand)
  (fieldname : pyval) : result expr :=
  match fn with
  | Some op => op f a fieldname
  | None => Raise (TypeError "'NoneType' object is not callable")
  end.

(** The messages of the [TypeError] an unknown operator ends in. *)
Definition not_callable_message (msg : string) : Prop :=
  msg = "'NoneType' object is not callable"
  \/ msg = "unhashable type: 'list'"
  \/ msg = "unhashable type: 'dict'".

(** An error names a token when its message contains it. *)
Definition names_token (e : pyexn) (token : string) : bool :=
  substring_in token (exn_message e).

(** ** Function, OrderBy, Filter, SearchParameters *)

(** The library functions the module calls: [json.loads], [json.dumps] and
    [dateutil.parser.parse]. *)
Class Library : Type := {
  json_loads : string -> result pyval;
  json_dumps : pyval -> string;
  parse_datetime : pyval -> result pyval
}.

Module Function.
Record t : Type := mk { name : pyval; field : pyval }.

(** Attributes of the named tuple class. *)
Definition attributes : list string :=
  [ "name"; "field"; "_fields"; "_make"; "_asdict"; "_replace"; "__str__";
    "__new__"; "__repr__"; "count"; "index" ].

(** [Function] called with the entries of [f] as keywords: exactly [name]
    and [field]. *)
Definition new (f : pyval) : result t :=
  match f with
  | PDict d =>
      if forallb (fun k => mem k ["name"; "field"]) (dict_keys d)
      then match assoc "name" d, assoc "field" d with
           | Some n, Some fl => Ok (mk n fl)
           | _, _ => Raise (TypeError "__new__() takes exactly 3 arguments")
           end
      else Raise (TypeError "__new__() got an unexpected keyword argument")
  | _ => Raise (TypeError "type object argument after ** must be a mapping")
  end.
End Function.

Module OrderBy.
Record t : Type := mk { field : pyval; direction : pyval }.

(** [OrderBy] called with the entries of [o] as keywords: [field] is
    required, [direction] defaults to ['asc']. *)
Definition new (o : pyval) : result t :=
  match o with
  | PDict d =>
      if forallb (fun k => mem k ["field"; "direction"]) (dict_keys d)
      then match assoc "field" d with
           | Some fl => Ok (mk fl (dict_get d "direction" (PStr "asc")))
           | None => Raise (TypeError "__init__() takes at least 2 arguments")
           end
      else Raise (TypeError "__init__() got an unexpected keyword argument")
  | _ => Raise (TypeError "type object argument after ** must be a mapping")
  end.
End OrderBy.

Module Filter.
Record t : Type := mk {
  fieldname : pyval;
  operator : pyval;
  argument : pyval;
  otherfield : pyval
}.

Definition init_locals : list string :=
  [ "self"; "fieldname"; "operator"; "argument"; "otherfield" ].

(** [Filter.__init__].  The [raise] statement evaluates the exception class
    and then its argument, the bare name [ILLEGAL_ARG_MSG]. *)
Definition __init__ (fieldname operator argument otherfield : pyval) : result t :=
  if truthy (py_and argument otherfield)
     || negb (truthy (py_or argument otherfield))
  then (do! resolve_name init_locals "IllegalArgumentError" in
        do! resolve_name init_locals "ILLEGAL_ARG_MSG" in
        Raise (IllegalArgumentError
                 "Must specify exactly one of argument and otherfield"))%result
  else Ok (mk fieldname operator argument otherfield).

Definition from_dictionary (dictionary : pyval) : result t :=
  (let! fieldname := py_get dictionary "name" PNone in
   let! operator := py_get dictionary "op" PNone in
   let! argument := py_get dictionary "val" PNone in
   let! otherfield := py_get dictionary "field" PNone in
   __init__ fieldname operator argument otherfield)%result.
End Filter.

Module SearchParameters.
Record t : Type := mk {
  filters : list Filter.t;
  functions : list Function.t;
  searchtype : pyval;
  limit : pyval;
  offset : pyval;
  order_by : option (list OrderBy.t)
}.

Definition init_locals : list string :=
  [ "self"; "filters"; "functions"; "searchtype"; "limit"; "offset"; "order_by" ].

(** [SearchParameters.__init__]; [order_by] is [None] unless given. *)
Definition __init__ (filters : list Filter.t) (functions : list Function.t)
  (searchtype limit offset : pyval) (order_by : option (list OrderBy.t)) : result t :=
  if nonempty filters && nonempty functions
  then (do! resolve_name init_locals "IllegalArgumentException" in
        do! resolve_name init_locals "ILLEGAL_ARG_MSG" in
        Raise (IllegalArgumentError
                 "Must specify at most one of filters and functions"))%result
  else Ok (mk filters functions searchtype limit offset order_by).

(** [Function.from_dictionary(f)] inside the comprehension: the attribute
    is looked up on the named tuple class before anything is called. *)
Definition Function_from_dictionary (f : pyval) : result Function.t :=
  (do! class_attribute "Function" Function.attributes "from_dictionary" in
   Function.new f)%result.

Definition from_dictionary (dictionary : pyval) : result t :=
  (let! fs := py_get dictionary "filters" (PList []) in
   let! fs := py_iter fs in
   let! filters := for_each Filter.from_dictionary fs in
   let! gs := py_get dictionary "functions" (PList []) in
   let! gs := py_iter gs in
   let! functions := for_each Function_from_dictionary gs in
   let! os := py_get dictionary "order_by" (PList []) in
   let! os := py_iter os in
   let! order_by := for_each OrderBy.new os in
   let! searchtype := py_get dictionary "type" PNone in
   let! limit := py_get dictionary "limit" PNone in
   let! offset := py_get dictionary "offset" PNone in
   __init__ filters functions searchtype limit offset (Some order_by))%result.

(** [from_string]: a static method, so its only local is [string]; the
    callee [self.from_dictionary] is evaluated before its argument. *)
Definition from_string {lib : Library} (string : string) : result t :=
  (do! resolve_name ["string"] "self" in
   from_dictionary (PStr (json_dumps (PStr string))))%result.
End SearchParameters.

(** ** QueryBuilder *)

(** [relation, fname = parts]. *)
Definition unpack2 (parts : list pyval) : result (pyval * pyval) :=
  match parts with
  | [a; b] => Ok (a, b)
  | [] | [_] => Raise (ValueError "need more than 1 value to unpack")
  | _ => Raise (ValueError "too many values to unpack")
  end.

(** [getattr(field, direction)()] on an instrumented attribute: the methods
    [asc] and [desc]; its other attributes are not modelled. *)
Definition getattr_direction (dir : pyval) : result direction :=
  match as_text dir with
  | None => Raise (TypeError "getattr(): attribute name must be string")
  | Some s =>
      if String.eqb s "asc" then Ok Asc
      else if String.eqb s "desc" then Ok Desc
      else Raise (AttributeError
                    ("'InstrumentedAttribute' object has no attribute '" +:+ s +:+ "'"))
  end.

(** [if cond: query = query.method(value)]. *)
Definition apply_if (method : Query -> pyval -> Query) (value : pyval) (query : Query)
  : Query :=
  if truthy value then method query value else query.

Module QueryBuilder.
Import Filter SearchParameters.

Definition _create_operation (model : Model) (fieldname operator : pyval)
  (argument : operand) (relation : pyval) : result expr :=
  (let! field := getattr_model model (py_or relation fieldname) in
   let! fn := OPERATORS_get operator in
   call_operator fn field argument fieldname)%result.

(** Body of the loop of [_extract_operators], for one filter. *)
Definition filter_operation (model : Model) (f : Filter.t) : result expr :=
  (let fname := fieldname f in
   let val := argument f in
   let! has_sep := py_contains "__" fname in
   let! '(relation, fname) :=
     (if has_sep : bool
      then let! parts := py_split fname "__" in unpack2 parts
      else Ok (PNone, fname)) in
   if truthy (otherfield f)
   then let! other := getattr_model model (otherfield f) in
        _create_operation model fname (operator f) (Attr other) relation
   else _create_operation model fname (operator f) (Lit val) relation)%result.

Definition _extract_operators (model : Model) (search_params : SearchParameters.t)
  : result (list expr) :=
  for_fold (fun operations f =>
              (let! param := filter_operation model f in
               Ok (operations ++ [param]))%result)
           (filters search_params) [].

(** Body of the ordering loop. *)
Definition order_step (model : Model) (query : Query) (val : OrderBy.t)
  : result Query :=
  (let! field := getattr_model model (OrderBy.field val) in
   let! dir := getattr_direction (OrderBy.direction val) in
   Ok (QOrderBy query field dir))%result.

Definition create_query (model : Model) (search_params : SearchParameters.t)
  : result Query :=
  (let query := QModel (model_name model) in
   let! operations := _extract_operators model search_params in
   let query := fold_left QFilter operations query in
   let! clauses :=
     match order_by search_params with
     | Some l => Ok l
     | None => Raise (TypeError "'NoneType' object is not iterable")
     end in
   let! query := for_fold (order_step model) clauses query in
   let query := apply_if QLimit (limit search_params) query in
   let query := apply_if QOffset (offset search_params) query in
   Ok query)%result.
End QueryBuilder.

(** What an ordering clause resolves to: the attribute and the direction. *)
Definition order_clause (model : Model) (val : OrderBy.t) : result (string * direction) :=
  (let! field := getattr_model model (OrderBy.field val) in
   let! dir := getattr_direction (OrderBy.direction val) in
   Ok (field, dir))%result.

(** The chain of calls [create_query] makes, given the resolved predicates
    and ordering clauses. *)
Definition composed (model : Model) (predicates : list expr)
  (clauses : list (string * direction)) (limit offset : pyval) : Query :=
  let filtered := fold_left QFilter predicates (QModel (model_name model)) in
  let ordered := fold_left (fun q c => QOrderBy q (fst c) (snd c)) clauses filtered in
  let limited := if truthy limit then QLimit ordered limit else ordered in
  if truthy offset then QOffset limited offset else limited.

(** The argument of the module-level [create_query]: a decoded value or an
    instance of [SearchParameters]. *)
Inductive search_arg : Type :=
| Value (v : pyval)
| Params (p : SearchParameters.t).

Definition create_query {lib : Library} (model : Model) (searchparams : search_arg)
  : result Query :=
  match searchparams with
  | Value (PDict d) =>
      (let! p := SearchParameters.from_dictionary (PDict d) in
       QueryBuilder.create_query model p)%result
  | Value (PStr s) =>
      (let! p := SearchParameters.from_string s in
       QueryBuilder.create_query model p)%result
  | Value v => no_attribute v "filters"
  | Params p => QueryBuilder.create_query model p
  end.

(** ** Storage session *)

(** An instance of an entity class: primary key, scalar attributes, and for
    each relation the primary keys of the related instances it holds
    ([None] where the collection holds Python's [None]). *)
Record Entity : Type := mkEntity {
  ent_id : Z;
  ent_fields : pydict;
  ent_related : list (string * list (option Z))
}.

(** The session: the instances of every entity class, by class name and
    primary key. *)
Definition Store : Type := gmap (string * Z) Entity.

(** What the SQL engine behind Elixir and [restful.model] decide. *)
Class Storage : Type := {
  (** rows a composed query yields when it is executed, in order *)
  execute : Store -> Query -> list Entity;
  (** rows of [session.query] over aggregate calls [(function, field)] *)
  aggregate : Store -> string -> list (string * string) -> list (list pyval);
  (** [instance.to_dict(deep)], [deep] having the given keys *)
  to_dict : Store -> string -> Entity -> list string -> pydict;
  (** [cls.get_by] with keyword values other than a lone primary key *)
  find_by : Store -> string -> pydict -> result (option Entity);
  (** [get_or_create(cls, ...)[0]] of [restful.model] *)
  get_or_create : Store -> string -> pydict -> result Entity * Store;
  (** [query.update(params, False)]: number of rows matched *)
  query_update : Store -> Query -> pydict -> result Z * Store;
  (** primary key the database gives a new row of a class *)
  next_id : Store -> string -> Z;
  (** what deleting the row of a class under a key does to the other rows:
      cascades, and the collections that held the instance *)
  on_delete : Store -> string -> Z -> Store;
  (** what moving the row of a class from a key to another does to the
      other rows: the references to it *)
  on_rekey : Store -> string -> Z -> Z -> Store;
  (** the primary key the database stores for a value other than an integer
      given to the key column, if it accepts the value *)
  key_of : pyval -> option Z
}.

(** [instance.delete()] and the commit: the row leaves the session, after
    the other rows have been adjusted. *)
Definition delete_row {sto : Storage} (cls : string) (key : Z) (st : Store) : Store :=
  base.delete (cls, key) (on_delete st cls key).

(** [cls.get_by(id=v)]: lookup by primary key; a value that is not an
    integer matches no row. *)
Definition get_by_id (st : Store) (cls : string) (v : pyval) : option Entity :=
  match v with
  | PInt z => st !! (cls, z)
  | _ => None
  end.

(** [query.one()]. *)
Definition one {A} (rows : list A) : result A :=
  match rows with
  | [] => Raise NoResultFound
  | [x] => Ok x
  | _ => Raise MultipleResultsFound
  end.

(** [dict(pairs)]: a later pair replaces an earlier one with the same key. *)
Fixpoint dict_set (key : string) (v : pyval) (d : pydict) : pydict :=
  match d with
  | [] => [(key, v)]
  | (k, w) :: rest =>
      if String.eqb k key then (k, v) :: rest else (k, w) :: dict_set key v rest
  end.

Definition dict_of_pairs (pairs : list (string * pyval)) : pydict :=
  fold_left (fun d kv => dict_set (fst kv) (snd kv) d) pairs [].

Fixpoint zip {A B} (l : list A) (l' : list B) : list (A * B) :=
  match l, l' with
  | x :: t, y :: t' => (x, y) :: zip t t'
  | _, _ => []
  end.

(** [set(l)]: each element once. *)
Fixpoint unique (l : list string) : list string :=
  match l with
  | [] => []
  | x :: rest => x :: List.filter (fun y => negb (String.eqb y x)) (unique rest)
  end.

Section Search.
Context {lib : Library} {sto : Storage}.

(** Body of the loop of [_evaluate_functions]: [getattr(func, f.name)],
    [getattr(model, f.field)] and [str(f)]. *)
Definition function_call (model : Model) (f : Function.t)
  : result ((string * string) * string) :=
  match as_text (Function.name f) with
  | None => Raise (TypeError "getattr(): attribute name must be string")
  | Some funcname =>
      (let! field := getattr_model model (Function.field f) in
       Ok ((funcname, field), funcname +:+ "__" +:+ field))%result
  end.

Definition _evaluate_functions (st : Store) (model : Model)
  (functions : list Function.t) : result pyval :=
  (let! calls := for_each (function_call model) functions in
   let processed := map fst calls in
   let funcnames := map snd calls in
   let! evaluated := one (aggregate st (model_name model) processed) in
   Ok (PDict (dict_of_pairs (zip funcnames evaluated))))%result.

Definition search (st : Store) (model : Model) (search_params : SearchParameters.t)
  : result pyval :=
  if nonempty (SearchParameters.functions search_params)
  then _evaluate_functions st model (SearchParameters.functions search_params)
  else
    (let! query := create_query model (Params search_params) in
     let relations := get_relations model in
     let deep := unique relations in
     if eq_text (SearchParameters.searchtype search_params) "one"
     then let! x := one (execute st query) in
          Ok (PDict (to_dict st (model_name model) x deep))
     else Ok (PList (map (fun x => PDict (to_dict st (model_name model) x deep))
                         (execute st query))))%result.
End Search.

(** ** Request handlers *)

(** How a view function ends: with a value, with an uncaught exception, or
    with [flask.abort(code)], which Flask turns into the response with that
    status. *)
Inductive outcome (A : Type) : Type :=
| Done (a : A)
| Raised (e : pyexn)
| Aborted (code : Z).
Arguments Done {A} a.
Arguments Raised {A} e.
Arguments Aborted {A} code.

(** Handlers read and change the session and may raise or abort. *)
Definition M (A : Type) : Type := Store -> outcome A * Store.

Definition ret {A} (a : A) : M A := fun st => (Done a, st).
Definition raise {A} (e : pyexn) : M A := fun st => (Raised e, st).
Definition abort {A} (code : Z) : M A := fun st => (Aborted code, st).

Definition bind {A B} (m : M A) (k : A -> M B) : M B :=
  fun st =>
    match m st with
    | (Done a, st') => k a st'
    | (Raised e, st') => (Raised e, st')
    | (Aborted c, st') => (Aborted c, st')
    end.

Definition lift {A} (r : result A) : M A :=
  fun st =>
    match r with
    | Ok a => (Done a, st)
    | Raise e => (Raised e, st)
    end.

Definition read {A} (f : Store -> A) : M A := fun st => (Done (f st), st).
Definition write (f : Store -> Store) : M unit := fun st => (Done tt, f st).
Definition run {A} (f : Store -> result A * Store) : M A :=
  fun st => let (r, st') := f st in lift r st'.

Declare Scope M_scope.
Delimit Scope M_scope with M.
Notation "'let!' x ':=' r 'in' k" := (bind r (fun x => k))
  (at level 10, x name, r at level 100, k at level 200) : M_scope.
Notation "'let!' ' p ':=' r 'in' k" := (bind r (fun p => k))
  (at level 10, p strict pattern, r at level 100, k at level 200) : M_scope.
Notation "'do!' r 'in' k" := (bind r (fun _ => k))
  (at level 10, r at level 100, k at level 200) : M_scope.

(** A [for] loop in a handler. *)
Fixpoint for_M {A} (body : A -> M unit) (l : list A) : M unit :=
  match l with
  | [] => ret tt
  | x :: rest => bind (body x) (fun _ => for_M body rest)
  end.

(** A [for] loop in a handler that fills a dictionary. *)
Fixpoint fold_M {A S} (body : S -> A -> M S) (l : list A) (s : S) : M S :=
  match l with
  | [] => ret s
  | x :: rest => bind (body s x) (fun s' => fold_M body rest s')
  end.

Record Response : Type := mkResponse {
  status : Z;
  body : option pyval
}.

Definition jsonify (d : pydict) : Response := mkResponse 200 (Some (PDict d)).

Definition jsonify_status_code (status_code : Z) (d : pydict) : Response :=
  mkResponse status_code (Some (PDict d)).

(** [make_response(None, code)]. *)
Definition make_response (code : Z) : Response := mkResponse code None.

(** The parts of [flask.request] the handlers read: the [q] query
    parameter, if any, and the body. *)
Record Request : Type := mkRequest {
  args_q : option string;
  data : string
}.

(** [except (TypeError, ValueError, OverflowError)]. *)
Definition is_decode_error (e : pyexn) : bool :=
  match e with
  | TypeError _ | ValueError _ | OverflowError _ => true
  | _ => false
  end.

Definition unable_to_decode : Response :=
  jsonify_status_code 400 [("message", PStr "Unable to decode data")].

(** [obj[key]] for a string [key]. *)
Definition py_getitem (obj : pyval) (key : string) : result pyval :=
  match obj with
  | PDict d =>
      match assoc key d with
      | Some v => Ok v
      | None => Raise (KeyError key)
      end
  | PList _ => Raise (TypeError "list indices must be integers, not str")
  | PStr _ | PUnicode _ => Raise (TypeError "string indices must be integers, not str")
  | _ => Raise (TypeError ("'" +:+ type_name obj +:+ "' object has no attribute '__getitem__'"))
  end.

(** Keyword arguments taken from an object: it must be a mapping. *)
Definition keywords (obj : pyval) : result pydict :=
  match obj with
  | PDict d => Ok d
  | _ => Raise (TypeError "argument after ** must be a mapping")
  end.

(** [obj.pop(key)]. *)
Definition py_pop (obj : pyval) (key : string) : result (pyval * pyval) :=
  match obj with
  | PDict d =>
      match assoc key d with
      | Some v => Ok (v, PDict (List.filter (fun kv => negb (String.eqb (fst kv) key)) d))
      | None => Raise (KeyError key)
      end
  | PList _ => Raise (TypeError "an integer is required")
  | _ => no_attribute obj "pop"
  end.

(** [cols[col].property.mapper.class_]. *)
Definition related_class (cols : list (string * attrkind)) (col : string)
  : result string :=
  match column col cols with
  | Some (Relation target) => Ok target
  | Some (Scalar _) =>
      Raise (AttributeError "'ColumnProperty' object has no attribute 'mapper'")
  | None => Raise (KeyError col)
  end.

(** [getattr(model, key).property.columns[0].type]. *)
Definition column_type (model : Model) (key : string) : result coltype :=
  match column key (get_columns model) with
  | Some (Scalar ty) => Ok ty
  | Some (Relation _) =>
      Raise (AttributeError "'RelationshipProperty' object has no attribute 'columns'")
  | None =>
      Raise (AttributeError ("type object '" +:+ model_name model
                             +:+ "' has no attribute '" +:+ key +:+ "'"))
  end.

Definition is_date (ty : coltype) : bool :=
  match ty with
  | TDate | TDateTime => true
  | TOther => false
  end.

(** [a ^ b] on sets. *)
Definition symmetric_difference (a b : list string) : list string :=
  List.filter (fun x => negb (mem x b)) a ++ List.filter (fun x => negb (mem x a)) b.

(** The collection [getattr(instance, col)] of a stored instance. *)
Definition related (e : Entity) (col : string) : list (option Z) :=
  match List.find (fun kv => String.eqb (fst kv) col) (ent_related e) with
  | Some kv => snd kv
  | None => []
  end.

Fixpoint set_related (col : string) (l : list (option Z))
  (rel : list (string * list (option Z))) : list (string * list (option Z)) :=
  match rel with
  | [] => [(col, l)]
  | (k, old) :: rest =>
      if String.eqb k col then (k, l) :: rest else (k, old) :: set_related col l rest
  end.

Definition same_ref (a b : option Z) : bool :=
  match a, b with
  | Some x, Some y => x =? y
  | None, None => true
  | _, _ => false
  end.

(** [l.remove(x)]: drops the first occurrence. *)
Fixpoint list_remove (x : option Z) (l : list (option Z)) : result (list (option Z)) :=
  match l with
  | [] => Raise (ValueError "list.remove(x): x not in list")
  | y :: rest =>
      if same_ref y x then Ok rest
      else match list_remove x rest with
           | Ok rest' => Ok (y :: rest')
           | Raise e => Raise e
           end
  end.

(** What a handler iterates over as [query]: a Python list of instances
    (or [None]), or a query, which is executed at every iteration. *)
Inductive targets : Type :=
| Listed (l : list (option Z))
| Queried (q : Query).

Module API.
Section Handlers.
Context {lib : Library} {sto : Storage}.

(** [self.model] *)
Variable model : Model.

Definition none_has_no {A} (attr : string) : M A :=
  raise (AttributeError ("'NoneType' object has no attribute '" +:+ attr +:+ "'")).

(** The instances a [for instance in query] loop visits, by primary key. *)
Definition instances (query : targets) : M (list (option Z)) :=
  match query with
  | Listed l => ret l
  | Queried q => read (fun st => map (fun e => Some (ent_id e)) (execute st q))
  end.

Definition with_related (e : Entity) (col : string) (l : list (option Z)) : Entity :=
  mkEntity (ent_id e) (ent_fields e) (set_related col l (ent_related e)).

(** [getattr(instance, col).append(subinst)] *)
Definition append_related (col : string) (subinst instance : option Z) : M unit :=
  match instance with
  | None => none_has_no col
  | Some id =>
      write (alter (fun e => with_related e col (related e col ++ [subinst]))
                   (model_name model, id))
  end.

(** [getattr(instance, col).remove(subinst)] *)
Definition remove_related (col : string) (subinst instance : option Z) : M unit :=
  match instance with
  | None => none_has_no col
  | Some id =>
      fun st =>
        let l := match st !! (model_name model, id) with
                 | Some e => related e col
                 | None => []
                 end in
        match list_remove subinst l with
        | Ok l' => (Done tt, alter (fun e => with_related e col l')
                                   (model_name model, id) st)
        | Raise e => (Raised e, st)
        end
  end.

(** Body of the loop over the [add] entries of one relation. *)
Definition add_entry (col submodel : string) (query : targets) (subparams : pyval)
  : M unit :=
  (let! has_id := lift (py_contains "id" subparams) in
   let! subinst :=
     (if has_id : bool
      then let! '(v, _) := lift (py_pop subparams "id") in
           read (fun st => option_map ent_id (get_by_id st submodel v))
      else let! vssubparams := lift (keywords subparams) in
           let! e := run (fun st => get_or_create st submodel vssubparams) in
           ret (Some (ent_id e))) in
   let! l := instances query in
   for_M (append_related col subinst) l)%M.

(** [try: remove = subparams.pop('__delete__') except KeyError: remove = False] *)
Definition pop_delete_marker (subparams : pyval) : result (pyval * pyval) :=
  match py_pop subparams "__delete__" with
  | Ok r => Ok r
  | Raise (KeyError _) => Ok (PBool false, subparams)
  | Raise e => Raise e
  end.

(** Body of the loop over the [remove] entries of one relation. *)
Definition remove_entry (col submodel : string) (query : targets) (subparams : pyval)
  : M unit :=
  (let! '(remove, subparams) := lift (pop_delete_marker subparams) in
   let! has_id := lift (py_contains "id" subparams) in
   let! subinst :=
     (if has_id : bool
      then let! v := lift (py_getitem subparams "id") in
           read (fun st => get_by_id st submodel v)
      else let! vssubparams := lift (keywords subparams) in
           run (fun st => (find_by st submodel vssubparams, st))) in
   let! l := instances query in
   do! for_M (remove_related col (option_map ent_id subinst)) l in
   if truthy remove
   then match subinst with
        | Some e => write (delete_row submodel (ent_id e))
        | None => none_has_no "delete"
        end
   else ret tt)%M.

(** Body of the loop over the relations named in the request. *)
Definition update_relation (query : targets) (params : pyval)
  (fields : list string) (col : string) : M (list string) :=
  (let cols := get_columns model in
   let! submodel := lift (related_class cols col) in
   let! from_request := lift (py_getitem params col) in
   let! adds := lift (let! a := py_get from_request "add" (PList []) in
                      py_iter a)%result in
   do! for_M (add_entry col submodel query) adds in
   let! removes := lift (let! r := py_get from_request "remove" (PList []) in
                         py_iter r)%result in
   do! for_M (remove_entry col submodel query) removes in
   ret (fields ++ [col]))%M.

Definition _update_relations (query : targets) (params : pyval) : M (list string) :=
  (let relations := get_relations model in
   let! keys := lift (py_keys params) in
   fold_M (update_relation query params)
          (List.filter (fun r => mem r keys) (unique relations)) [])%M.

(** [isinstance(result, list)] decides the envelope. *)
Definition respond (result : pyval) : M Response :=
  match result with
  | PList l => ret (jsonify [("objects", PList l)])
  | PDict d => ret (jsonify d)
  | _ => raise (TypeError "cannot convert dictionary update sequence")
  end.

Definition _search (request : Request) : M Response :=
  match json_loads (default "{}" (args_q request)) with
  | Raise e => if is_decode_error e then ret unable_to_decode else raise e
  | Ok data =>
      (let! has_functions := lift (py_contains "functions" data) in
       if has_functions : bool
       then
         let! fs := lift (py_getitem data "functions") in
         let! fs := lift (py_iter fs) in
         let! functions := lift (for_each Function.new fs) in
         let! result := run (fun st => (_evaluate_functions st model functions, st)) in
         respond result
       else
         fun st =>
           match (let! searchparams := SearchParameters.from_dictionary data in
                  search st model searchparams)%result with
           | Ok result => respond result st
           | Raise NoResultFound =>
               (Done (jsonify [("message", PStr "No result found")]), st)
           | Raise MultipleResultsFound =>
               (Done (jsonify [("message", PStr "Multiple results found")]), st)
           | Raise e => (Raised e, st)
           end)%M
  end.

Definition get (request : Request) (instid : option Z) : M Response :=
  match instid with
  | None => _search request
  | Some id =>
      (let! inst := read (fun st => get_by_id st (model_name model) (PInt id)) in
       match inst with
       | None => abort 404
       | Some e =>
           let relations := get_relations model in
           let deep := unique relations in
           read (fun st => jsonify (to_dict st (model_name model) e deep))
       end)%M
  end.

(** [inst.delete(); session.commit()] deletes the row found under the
    primary key, with what the deletion does to the other rows; the commit
    itself is taken to succeed. *)
Definition delete (instid : Z) : M Response :=
  (let! inst := read (fun st => get_by_id st (model_name model) (PInt instid)) in
   do! match inst with
       | Some _ => write (delete_row (model_name model) instid)
       | None => ret tt
       end in
   ret (make_response 204))%M.

(** [dict((field, data[field]) for field in field_list)] *)
Definition select_fields (data : pyval) (field_list : list string) : result pydict :=
  (let! pairs := for_each (fun field => let! v := py_getitem data field in
                                        Ok (field, v)) field_list in
   Ok (dict_of_pairs pairs))%result.

(** The loop that converts the values of date columns. *)
Definition convert_dates (originalparams : pydict) : result pydict :=
  for_fold (fun params kv =>
              (let! fieldtype := column_type model (fst kv) in
               if is_date fieldtype
               then let! v := parse_datetime (snd kv) in
                    Ok (dict_set (fst kv) v params)
               else Ok (dict_set (fst kv) (snd kv) params))%result)
           originalparams [].

(** [setattr(inst, field, value)] on the instance the session holds, kept
    with the primary key its row has after the commit.  The attribute [id]
    is the primary key: an integer given to it is the new key, and so is
    what the database makes of another value, whose refusal ends the
    request (the session is only written at the commit). *)
Definition setattr (inst : option (Z * Entity)) (field : string) (value : pyval)
  : M (option (Z * Entity)) :=
  match inst with
  | None => none_has_no field
  | Some (key, e) =>
      if String.eqb field "id" then
        match (match value with PInt z => Some z | _ => key_of value end) with
        | Some z =>
            ret (Some (z, mkEntity z (dict_set field (PInt z) (ent_fields e))
                                   (ent_related e)))
        | None => raise (StorageError "IntegrityError")
        end
      else
        ret (Some (key, mkEntity (ent_id e) (dict_set field value (ent_fields e))
                                 (ent_related e)))
  end.

(** [session.commit()] after the assignments to the instance loaded under
    [id]: its row is stored again, under the new primary key if [id] was
    assigned; a key that another row holds is refused. *)
Definition commit_instance (id : Z) (inst : option (Z * Entity)) : M unit :=
  match inst with
  | None => ret tt
  | Some (key, e) =>
      fun st =>
        if key =? id then (Done tt, <[(model_name model, id) := e]> st)
        else match st !! (model_name model, key) with
             | Some _ => (Raised (StorageError "IntegrityError"), st)
             | None =>
                 (Done tt,
                  <[(model_name model, key) := e]>
                    (base.delete (model_name model, id)
                       (on_rekey st (model_name model) id key)))
             end
  end.

Definition _patch_many (request : Request) : M Response :=
  match json_loads (data request) with
  | Raise e => if is_decode_error e then ret unable_to_decode else raise e
  | Ok data =>
      (let! query := lift (create_query model (Value data)) in
       let! n := lift (py_len data) in
       if n =? 0 then ret (make_response 204)
       else
         let! relations := _update_relations (Queried query) data in
         let relations := unique relations in
         let! keys := lift (py_keys data) in
         let field_list := symmetric_difference keys relations in
         let! originalparams := lift (select_fields data field_list) in
         let! params := lift (convert_dates originalparams) in
         let! num_modified :=
           (if nonempty params
            then run (fun st => query_update st query params)
            else ret 0) in
         ret (jsonify [("num_modified", PInt num_modified)]))%M
  end.

Definition patch (request : Request) (instid : option Z) : M Response :=
  match instid with
  | None => _patch_many request
  | Some id =>
      match json_loads (data request) with
      | Raise e => if is_decode_error e then ret unable_to_decode else raise e
      | Ok data =>
          (let! n := lift (py_len data) in
           if n =? 0 then ret (make_response 204)
           else
             let! found := read (fun st => get_by_id st (model_name model) (PInt id)) in
             let target := option_map (fun _ => id) found in
             let! relations := _update_relations (Listed [target]) data in
             let relations := unique relations in
             let! keys := lift (py_keys data) in
             let field_list := symmetric_difference keys relations in
             let! originalparams := lift (select_fields data field_list) in
             let! params := lift (convert_dates originalparams) in
             let! found := read (fun st => get_by_id st (model_name model) (PInt id)) in
             let inst := option_map (fun e => (id, e)) found in
             let! inst := fold_M (fun inst field =>
                                    let! v := lift (py_getitem (PDict params) field) in
                                    setattr inst field v) field_list inst in
             do! commit_instance id inst in
             get request (Some id))%M
      end
  end.

(** [session.add(instance); session.commit()]: the row gets the primary
    key it was given, or the next one of the database. *)
Definition add_and_commit (fields : pydict) (rel : list (string * list (option Z)))
  : M Z :=
  fun st =>
    let id := match assoc "id" fields with
              | Some (PInt z) => z
              | _ => next_id st (model_name model)
              end in
    match st !! (model_name model, id) with
    | Some _ => (Raised (StorageError "IntegrityError"), st)
    | None => (Done id, <[(model_name model, id) := mkEntity id fields rel]> st)
    end.

Definition post (request : Request) : M Response :=
  match json_loads (data request) with
  | Raise e => if is_decode_error e then ret unable_to_decode else raise e
  | Ok params =>
      (let cols := get_columns model in
       let relations := get_relations model in
       let colkeys := unique (map fst cols) in
       let! paramkeys := lift (py_keys params) in
       let props := List.filter (fun k => negb (mem k relations))
                           (List.filter (fun k => mem k paramkeys) colkeys) in
       let! fields := lift (select_fields params props) in
       let! rel :=
         fold_M (fun rel col =>
                   let! submodel := lift (related_class cols col) in
                   let! subs := lift (let! v := py_getitem params col in py_iter v)%result in
                   fold_M (fun rel subparams =>
                             let! kw := lift (keywords subparams) in
                             let! e := run (fun st => get_or_create st submodel kw) in
                             ret (set_related col
                                    (default [] (snd <$> List.find
                                       (fun kv => String.eqb (fst kv) col) rel)
                                     ++ [Some (ent_id e)]) rel))
                          subs rel)
                (List.filter (fun r => mem r paramkeys) (unique relations)) [] in
       let! id := add_and_commit fields rel in
       ret (jsonify_status_code 201 [("id", PInt id)]))%M
  end.
End Handlers.
End API.

(** The attributes [post] gives the instance it creates: the entries of
    the body whose key is a column of the model and not a relation. *)
Definition created_fields (model : Model) (d : pydict) : pydict :=
  dict_of_pairs
    (map (fun k => (k, dict_get d k PNone))
         (List.filter (fun k => negb (mem k (get_relations model)))
            (List.filter (fun k => mem k (dict_keys d))
               (unique (map fst (get_columns model)))))).


(** ** Registering the routes *)

Module APIManager.

(** A URL rule added to the blueprint: the pattern, the default it gives
    [instid] if any, and the methods it serves. *)
Record Rule : Type := mkRule {
  rule : string;
  defaults : option pyval;
  methods : gset string
}.

Record Blueprint : Type := mkBlueprint {
  name : string;
  url_prefix : string;
  rules : list Rule
}.

(** The blueprint [create_api] builds and registers on the application. *)
Definition create_api (model : Model) (methods : list string) (url_prefix : string)
  : Blueprint :=
  let modelname := model_name model in
  let methods : gset string := list_to_set methods in
  let no_instance_methods := methods ∩ {["POST"]} in
  let possibly_empty_instance_methods := methods ∩ ({["GET"]} ∪ {["PATCH"]}) in
  let instance_methods := methods ∩ ({["GET"]} ∪ {["PATCH"]} ∪ {["DELETE"]}) in
  let collection_endpoint := "/" +:+ modelname in
  let instance_endpoint := collection_endpoint +:+ "/<int:instid>" in
  let apiname := modelname +:+ "api" in
  mkBlueprint apiname url_prefix
    [ mkRule collection_endpoint None no_instance_methods;
      mkRule collection_endpoint (Some PNone) possibly_empty_instance_methods;
      mkRule instance_endpoint None instance_methods ].

(** [create_api] with its default arguments. *)
Definition create_api_default (model : Model) : Blueprint :=
  create_api model ["GET"] "/api".

(** What a request addresses below the prefix: the collection of a model or
    one instance of it. *)
Inductive target : Type :=
| Collection (modelname : string)
| Instance (modelname : string) (instid : Z).

(** The values a rule extracts from the path it matches.  [None]: the rule
    does not match; [Some None]: it matches and passes no [instid];
    [Some (Some v)]: it matches and passes [instid = v]. *)
Definition rule_values (r : Rule) (t : target) : option (option pyval) :=
  match t with
  | Collection modelname =>
      if String.eqb (rule r) ("/" +:+ modelname) then Some (defaults r) else None
  | Instance modelname instid =>
      if String.eqb (rule r) ("/" +:+ modelname +:+ "/<int:instid>")
      then Some (Some (PInt instid))
      else None
  end.

(** The first rule that matches the path and serves the method.  The
    HEAD and OPTIONS methods that Flask adds to a rule by itself are not
    modelled. *)
Fixpoint route (rs : list Rule) (method : string) (t : target)
  : option (option pyval) :=
  match rs with
  | [] => None
  | r :: rest =>
      match rule_values r t with
      | Some values =>
          if bool_decide (method ∈ methods r) then Some values
          else route rest method t
      | None => route rest method t
      end
  end.

Section View.
Context {lib : Library} {sto : Storage}.
Variable model : Model.

(** [MethodView] calls the handler named after the method with the values
    of the rule.  A handler called with arguments it does not take is a
    [TypeError]. *)
Definition view (request : Request) (method : string) (values : option pyval)
  : M Response :=
  if String.eqb method "POST" then
    match values with
    | None => API.post model request
    | Some _ => raise (TypeError "post() got an unexpected keyword argument 'instid'")
    end
  else
    match values with
    | None => raise (TypeError "handler takes exactly 2 arguments (1 given)")
    | Some v =>
        let instid := match v with PInt z => Some z | _ => None end in
        if String.eqb method "GET" then API.get model request instid
        else if String.eqb method "PATCH" then API.patch model request instid
        else if String.eqb method "DELETE" then
          match instid with
          | Some z => API.delete model z
          | None => ret (make_response 204)
          end
        else abort 405
    end.

(** A request to the registered blueprint: 404 when no rule has the path,
    405 when none serves the method. *)
Definition serve (bp : Blueprint) (request : Request) (method : string) (t : target)
  : M Response :=
  match route (rules bp) method t with
  | Some values => view request method values
  | None =>
      if existsb (fun r => match rule_values r t with Some _ => true | None => false end)
                 (rules bp)
      then abort 405
      else abort 404
  end.
End View.
End APIManager.

(** ** An implementation of the collaborators, for the examples *)

Module Sample.
Local Open Scope char_scope.

Definition double_quote : ascii := "034".

(** JSON text is written here with apostrophes where JSON has double
    quotes; [json] puts the double quotes back. *)
Fixpoint json (s : string) : string :=
  match s with
  | EmptyString => EmptyString
  | String c rest => String (if Ascii.eqb c "'" then double_quote else c) (json rest)
  end.

(** *** A decoder and encoder for the JSON of the examples

    Spaces, [null], [true], [false], integers, strings without escapes,
    arrays and objects.  Anything else is a [ValueError], as with
    [json.loads]. *)

Fixpoint skip_spaces (s : string) : string :=
  match s with
  | String c rest => if Ascii.eqb c " " then skip_spaces rest else s
  | EmptyString => s
  end.

(** The characters up to the closing quote, and what follows it. *)
Fixpoint read_string (acc s : string) : option (string * string) :=
  match s with
  | EmptyString => None
  | String c rest =>
      if Ascii.eqb c "034" then Some (acc, rest)
      else if Ascii.eqb c "\" then None
      else read_string (acc +:+ String c EmptyString) rest
  end.

Definition digit (c : ascii) : option Z :=
  let n := Z.of_nat (nat_of_ascii c) in
  if (48 <=? n)%Z && (n <=? 57)%Z then Some (n - 48)%Z else None.

Fixpoint read_digits (acc : Z) (s : string) : Z * string :=
  match s with
  | String c rest =>
      match digit c with
      | Some d => read_digits (10 * acc + d)%Z rest
      | None => (acc, s)
      end
  | EmptyString => (acc, s)
  end.

Definition read_number (s : string) : option (Z * string) :=
  match s with
  | String c rest =>
      if Ascii.eqb c "-"
      then match rest with
           | String d _ =>
               match digit d with
               | Some _ => let (n, r) := read_digits 0 rest in Some ((- n)%Z, r)
               | None => None
               end
           | EmptyString => None
           end
      else match digit c with
           | Some _ => Some (read_digits 0 s)
           | None => None
           end
  | EmptyString => None
  end.

Definition read_word (word : string) (v : pyval) (s : string)
  : option (pyval * string) :=
  if String.prefix word s
  then Some (v, String.substring (String.length word)
                  (String.length s - String.length word) s)
  else None.

Fixpoint decode (fuel : nat) (s : string) : option (pyval * string) :=
  match fuel with
  | O => None
  | S n =>
      match skip_spaces s with
      | EmptyString => None
      | String c rest =>
          if Ascii.eqb c "n" then read_word "null" PNone (String c rest)
          else if Ascii.eqb c "t" then read_word "true" (PBool true) (String c rest)
          else if Ascii.eqb c "f" then read_word "false" (PBool false) (String c rest)
          else if Ascii.eqb c "034" then
            match read_string EmptyString rest with
            | Some (str, r) => Some (PUnicode str, r)
            | None => None
            end
          else if Ascii.eqb c "[" then
            match skip_spaces rest with
            | String d r =>
                if Ascii.eqb d "]" then Some (PList [], r)
                else match decode_items n rest with
                     | Some (l, r') => Some (PList l, r')
                     | None => None
                     end
            | EmptyString => None
            end
          else if Ascii.eqb c "{" then
            match skip_spaces rest with
            | String d r =>
                if Ascii.eqb d "}" then Some (PDict [], r)
                else match decode_members n rest with
                     | Some (l, r') => Some (PDict (dict_of_pairs l), r')
                     | None => None
                     end
            | EmptyString => None
            end
          else match read_number (String c rest) with
               | Some (z, r) => Some (PInt z, r)
               | None => None
               end
      end
  end
with decode_items (fuel : nat) (s : string) : option (list pyval * string) :=
  match fuel with
  | O => None
  | S n =>
      match decode n s with
      | None => None
      | Some (v, r) =>
          match skip_spaces r with
          | String c r' =>
              if Ascii.eqb c "]" then Some ([v], r')
              else if Ascii.eqb c "," then
                match decode_items n r' with
                | Some (l, r'') => Some (v :: l, r'')
                | None => None
                end
              else None
          | EmptyString => None
          end
      end
  end
with decode_members (fuel : nat) (s : string)
  : option (list (string * pyval) * string) :=
  match fuel with
  | O => None
  | S n =>
      match skip_spaces s with
      | String q r0 =>
          if Ascii.eqb q "034" then
            match read_string EmptyString r0 with
            | None => None
            | Some (key, r1) =>
                match skip_spaces r1 with
                | String c r2 =>
                    if Ascii.eqb c ":" then
                      match decode n r2 with
                      | None => None
                      | Some (v, r3) =>
                          match skip_spaces r3 with
                          | String e r4 =>
                              if Ascii.eqb e "}" then Some ([(key, v)], r4)
                              else if Ascii.eqb e "," then
                                match decode_members n r4 with
                                | Some (l, r5) => Some ((key, v) :: l, r5)
                                | None => None
                                end
                              else None
                          | EmptyString => None
                          end
                      end
                    else None
                | EmptyString => None
                end
            end
          else None
      | EmptyString => None
      end
  end.

Definition loads (s : string) : result pyval :=
  match decode (S (String.length s)) s with
  | Some (v, rest) =>
      match skip_spaces rest with
      | EmptyString => Ok v
      | String _ _ => Raise (ValueError "Extra data")
      end
  | None => Raise (ValueError "No JSON object could be decoded")
  end.

Local Close Scope char_scope.

Definition quoted (s : string) : string :=
  String double_quote EmptyString +:+ s +:+ String double_quote EmptyString.

Fixpoint dumps (v : pyval) : string :=
  match v with
  | PNone => "null"
  | PBool true => "true"
  | PBool false => "false"
  | PInt z => pretty z
  | PStr s | PUnicode s | PDatetime s => quoted s
  | PList l =>
      "[" +:+ (fix items (l : list pyval) : string :=
                 match l with
                 | [] => EmptyString
                 | [x] => dumps x
                 | x :: rest => dumps x +:+ ", " +:+ items rest
                 end) l +:+ "]"
  | PDict d =>
      "{" +:+ (fix members (d : list (string * pyval)) : string :=
                 match d with
                 | [] => EmptyString
                 | [(k, x)] => quoted k +:+ ": " +:+ dumps x
                 | (k, x) :: rest => quoted k +:+ ": " +:+ dumps x +:+ ", " +:+ members rest
                 end) d +:+ "}"
  end.

(** [dateutil] parses text; the examples take any non-empty text as a date. *)
Definition parse (v : pyval) : result pyval :=
  match as_text v with
  | Some EmptyString => Raise (ValueError "String does not contain a date.")
  | Some s => Ok (PDatetime s)
  | None => no_attribute v "read"
  end.

Definition library : Library :=
  {| json_loads := loads; json_dumps := dumps; parse_datetime := parse |}.

(** *** A small in-memory engine

    Comparisons between a scalar attribute and a literal or another
    attribute; [like], [in], [has] and [any] select nothing; rows come in
    primary-key order and ordering clauses are not applied; deleting or
    moving a row changes no other row, and only integers are keys. *)

Fixpoint py_eqb (a b : pyval) : bool :=
  match a, b with
  | PNone, PNone => true
  | PBool x, PBool y => Bool.eqb x y
  | PInt x, PInt y => (x =? y)%Z
  | PStr x, PStr y | PStr x, PUnicode y | PUnicode x, PStr y
  | PUnicode x, PUnicode y | PDatetime x, PDatetime y => String.eqb x y
  | PList l, PList l' =>
      (fix all2 (l l' : list pyval) : bool :=
         match l, l' with
         | [], [] => true
         | x :: t, y :: t' => py_eqb x y && all2 t t'
         | _, _ => false
         end) l l'
  | PDict d, PDict d' =>
      (fix all2 (d d' : list (string * pyval)) : bool :=
         match d, d' with
         | [], [] => true
         | (k, x) :: t, (k', y) :: t' => String.eqb k k' && py_eqb x y && all2 t t'
         | _, _ => false
         end) d d'
  | _, _ => false
  end.

Definition rows_of (st : Store) (cls : string) : list Entity :=
  map snd (List.filter (fun kv => String.eqb (fst (fst kv)) cls) (map_to_list st)).

Definition value_of (e : Entity) (a : operand) : pyval :=
  match a with
  | Lit v => v
  | Attr g => dict_get (ent_fields e) g PNone
  end.

Definition compare (c : comparison) (a b : pyval) : bool :=
  match c, a, b with
  | CEq, _, _ => py_eqb a b
  | CNe, _, _ => negb (py_eqb a b)
  | CGt, PInt x, PInt y => (y <? x)%Z
  | CLt, PInt x, PInt y => (x <? y)%Z
  | CGe, PInt x, PInt y => (y <=? x)%Z
  | CLe, PInt x, PInt y => (x <=? y)%Z
  | _, _, _ => false
  end.

Definition holds (p : expr) (e : Entity) : bool :=
  match p with
  | Compare c f a => compare c (dict_get (ent_fields e) f PNone) (value_of e a)
  | _ => false
  end.

Definition count_of (n : pyval) : nat :=
  match n with
  | PInt z => Z.to_nat z
  | _ => 0
  end.

Fixpoint run_query (st : Store) (q : Query) : list Entity :=
  match q with
  | QModel cls => rows_of st cls
  | QFilter q p => List.filter (holds p) (run_query st q)
  | QOrderBy q _ _ => run_query st q
  | QLimit q n => take (count_of n) (run_query st q)
  | QOffset q n => drop (count_of n) (run_query st q)
  end.

(** A function applied to one row: [abs] on integers; any other function
    leaves the value as it is. *)
Definition apply_function (call : string * string) (e : Entity) : pyval :=
  match dict_get (ent_fields e) (snd call) PNone with
  | PInt z => if String.eqb (fst call) "abs" then PInt (Z.abs z) else PInt z
  | v => v
  end.

(** [session.query] over function calls.  When every call is the aggregate
    [count] there is one row, with the counts; otherwise the functions are
    applied row by row and there is one row of results per stored row. *)
Definition run_aggregate (st : Store) (cls : string) (calls : list (string * string))
  : list (list pyval) :=
  if forallb (fun call => String.eqb (fst call) "count") calls
  then [ map (fun _ => PInt (Z.of_nat (length (rows_of st cls)))) calls ]
  else map (fun e => map (fun call => apply_function call e) calls) (rows_of st cls).

Definition serialize (st : Store) (cls : string) (e : Entity) (deep : list string)
  : pydict :=
  ent_fields e
  ++ map (fun col =>
            (col, PList (map (fun r => match r with
                                       | Some z => PDict [("id", PInt z)]
                                       | None => PNone
                                       end)
                             (default [] (snd <$> List.find
                                (fun kv => String.eqb (fst kv) col) (ent_related e))))))
         deep.

Definition matches (kw : pydict) (e : Entity) : bool :=
  forallb (fun kv => py_eqb (dict_get (ent_fields e) (fst kv) PNone) (snd kv)) kw.

Definition first_match (st : Store) (cls : string) (kw : pydict)
  : result (option Entity) :=
  Ok (head (List.filter (matches kw) (rows_of st cls))).

Definition fresh_id (st : Store) (cls : string) : Z :=
  1 + fold_right Z.max 0 (map ent_id (rows_of st cls)).

Definition obtain (st : Store) (cls : string) (kw : pydict) : result Entity * Store :=
  match head (List.filter (matches kw) (rows_of st cls)) with
  | Some e => (Ok e, st)
  | None =>
      let id := fresh_id st cls in
      let e := mkEntity id (dict_set "id" (PInt id) kw) [] in
      (Ok e, <[(cls, id) := e]> st)
  end.

Definition update_rows (st : Store) (q : Query) (params : pydict) : result Z * Store :=
  let hit := run_query st q in
  (Ok (Z.of_nat (length hit)),
   fold_left (fun st e =>
                match q with
                | QModel cls | QFilter (QModel cls) _ =>
                    alter (fun e => mkEntity (ent_id e)
                                      (fold_left (fun d kv => dict_set (fst kv) (snd kv) d)
                                                 params (ent_fields e))
                                      (ent_related e))
                          (cls, ent_id e) st
                | _ => st
                end) hit st).

Definition storage : Storage :=
  {| execute := run_query;
     aggregate := run_aggregate;
     to_dict := serialize;
     find_by := first_match;
     get_or_create := obtain;
     query_update := update_rows;
     next_id := fresh_id;
     on_delete := fun st _ _ => st;
     on_rekey := fun st _ _ _ => st;
     key_of := fun _ => None |}.

(** *** An entity class and some rows *)

Definition Person : Model :=
  mkModel "Person"
    [ ("id", Scalar TOther); ("name", Scalar TOther); ("age", Scalar TOther);
      ("birth_date", Scalar TDate); ("computers", Relation "Computer") ]
    [ "computers" ].

Definition person (id : Z) (name : string) (age : Z) : Entity :=
  mkEntity id [("id", PInt id); ("name", PUnicode name); ("age", PInt age)] [].

Definition nobody : Store := ∅.

Definition mary : Store := {[ ("Person", 1%Z) := person 1 "Mary" 19 ]}.

Definition mary_and_lincoln : Store :=
  <[ ("Person", 2%Z) := person 2 "Lincoln" 23 ]> mary.
End Sample.

(** * Properties *)

(** ** Loops *)

Lemma for_fold_collect {A B} (g : A -> result B) (l : list A) (acc : list B) :
  for_fold (fun ys x => (let! y := g x in Ok (ys ++ [y]))%result) l acc
  = match for_each g l with
    | Ok ys => Ok (acc ++ ys)
    | Raise e => Raise e
    end.
Proof.
  revert acc. induction l as [|x l IH]; intros acc; simpl.
  - by rewrite app_nil_r.
  - destruct (g x) as [y|e]; simpl; [|done].
    rewrite IH. destruct (for_each g l) as [ys|e]; [|done].
    by rewrite <- app_assoc.
Qed.

Lemma for_each_Ok_inv {A B} (g : A -> result B) (l : list A) (ys : list B) (x : A) :
  for_each g l = Ok ys -> In x l -> exists y, g x = Ok y.
Proof.
  revert ys. induction l as [|a l IH]; intros ys Hok Hin; [destruct Hin|].
  simpl in Hok. destruct (g a) as [y|e] eqn:Ha; [|discriminate].
  destruct (for_each g l) as [ys'|e] eqn:Hl; [|discriminate].
  destruct Hin as [->|Hin]; eauto.
Qed.

Lemma for_fold_order (model : Model) (obs : list OrderBy.t)
  (clauses : list (string * direction)) (q : Query) :
  for_each (order_clause model) obs = Ok clauses ->
  for_fold (QueryBuilder.order_step model) obs q
  = Ok (fold_left (fun q c => QOrderBy q (fst c) (snd c)) clauses q).
Proof.
  revert clauses q. induction obs as [|o obs IH]; intros clauses q Hc; simpl in *.
  - by inversion Hc.
  - unfold QueryBuilder.order_step, order_clause in *.
    destruct (getattr_model model (OrderBy.field o)) as [f|e]; simpl in *; [|discriminate].
    destruct (getattr_direction (OrderBy.direction o)) as [d|e]; simpl in *; [|discriminate].
    destruct (for_each _ obs) as [cs|e] eqn:Hobs; [|discriminate].
    inversion Hc; subst. simpl. by apply IH.
Qed.

(** ** Search parameters *)

(** C2.  Constructing [SearchParameters] with non-empty filters and
    non-empty functions raises (a [NameError]: the name given for the
    exception class does not resolve), and every value that is constructed
    has at most one of the two non-empty. *)
Theorem SearchParameters_filters_xor_functions
  (filters : list Filter.t) (functions : list Function.t)
  (searchtype limit offset : pyval) (order_by : option (list OrderBy.t)) :
  (filters <> [] -> functions <> [] ->
   SearchParameters.__init__ filters functions searchtype limit offset order_by
   = Raise (NameError "global name 'IllegalArgumentException' is not defined"))
  /\ (forall p, SearchParameters.__init__ filters functions searchtype limit offset order_by
                = Ok p ->
                (SearchParameters.filters p = [] \/ SearchParameters.functions p = [])
                /\ SearchParameters.filters p = filters
                /\ SearchParameters.functions p = functions).
Proof.
  unfold SearchParameters.__init__. split.
  - intros Hf Hg. destruct filters; [done|]. destruct functions; [done|].
    reflexivity.
  - intros p. destruct filters as [|f fs]; simpl.
    + intros [= <-]. simpl. auto.
    + destruct functions as [|g gs]; simpl; [|discriminate].
      intros [= <-]. simpl. auto.
Qed.

Lemma SearchParameters_filters_xor_functions_witness :
  SearchParameters.__init__
    [Filter.mk (PStr "age") (PStr "gt") (PInt 18) PNone]
    [Function.mk (PStr "sum") (PStr "age")] PNone PNone PNone None
  = Raise (NameError "global name 'IllegalArgumentException' is not defined")
  /\ (SearchParameters.filters
        (SearchParameters.mk [Filter.mk (PStr "age") (PStr "gt") (PInt 18) PNone] []
           PNone PNone PNone None) = []
      \/ SearchParameters.functions
           (SearchParameters.mk [Filter.mk (PStr "age") (PStr "gt") (PInt 18) PNone] []
              PNone PNone PNone None) = []).
Proof.
  split.
  - apply (SearchParameters_filters_xor_functions
             [Filter.mk (PStr "age") (PStr "gt") (PInt 18) PNone]
             [Function.mk (PStr "sum") (PStr "age")] PNone PNone PNone None);
      discriminate.
  - apply (SearchParameters_filters_xor_functions
             [Filter.mk (PStr "age") (PStr "gt") (PInt 18) PNone] []
             PNone PNone PNone None).
    reflexivity.
Defined.

(** ** Filters *)

(** Construction of a [Filter] goes by the truth values of the two
    arguments: it succeeds exactly when one of them is true and the other
    is not. *)
Lemma Filter_init_truthy (fieldname operator argument otherfield : pyval) :
  (exists f, Filter.__init__ fieldname operator argument otherfield = Ok f)
  <-> truthy argument = negb (truthy otherfield).
Proof.
  unfold Filter.__init__, py_and, py_or.
  destruct (truthy argument) eqn:Ha, (truthy otherfield) eqn:Ho;
    simpl; rewrite ?Ha, ?Ho; simpl; split; try done; eauto; intros [f Hf]; discriminate.
Qed.

(** C3.  A filter that gives only the literal value [0] is rejected: the
    test of [Filter.__init__] takes the falsy literal for a missing one (and
    the error it then raises is a [NameError], because [ILLEGAL_ARG_MSG] is
    not in scope). *)
Theorem Filter_init_rejects_zero_literal :
  Filter.__init__ (PUnicode "age") (PUnicode "eq") (PInt 0) PNone
  = Raise (NameError "global name 'ILLEGAL_ARG_MSG' is not defined")
  /\ Filter.from_dictionary
       (PDict [("name", PUnicode "age"); ("op", PUnicode "eq"); ("val", PInt 0)])
     = Raise (NameError "global name 'ILLEGAL_ARG_MSG' is not defined").
Proof. split; reflexivity. Qed.

(** ** The string entry point *)

(** C9.  [SearchParameters.from_string] raises for every string: the name
    [self] does not resolve in a static method.  So does [create_query]
    given a byte string, and given a [unicode] string it raises as well
    (the object has no [filters]). *)
Theorem create_query_string_raises {lib : Library} (model : Model) (s : string) :
  SearchParameters.from_string s
  = Raise (NameError "global name 'self' is not defined")
  /\ create_query model (Value (PStr s))
     = Raise (NameError "global name 'self' is not defined")
  /\ create_query model (Value (PUnicode s))
     = Raise (AttributeError "'unicode' object has no attribute 'filters'").
Proof. repeat split; reflexivity. Qed.

(** ** Deletion *)

(** C7.  [delete] answers 204 whether or not the instance exists, and a
    second call right after the first answers 204 again and leaves the
    session as the first call left it. *)
Theorem delete_idempotent {sto : Storage} (model : Model) (instid : Z) (st : Store) :
  fst (API.delete model instid st) = Done (make_response 204)
  /\ fst (API.delete model instid (snd (API.delete model instid st)))
     = Done (make_response 204)
  /\ snd (API.delete model instid (snd (API.delete model instid st)))
     = snd (API.delete model instid st)
  /\ snd (API.delete model instid st) !! (model_name model, instid) = None.
Proof.
  assert (Hfst : forall st', fst (API.delete model instid st') = Done (make_response 204)).
  { intros st'. unfold API.delete, bind, read, write, ret, get_by_id.
    by destruct (st' !! (model_name model, instid)). }
  assert (Hgone : snd (API.delete model instid st) !! (model_name model, instid) = None).
  { unfold API.delete, bind, read, write, ret, get_by_id.
    destruct (st !! (model_name model, instid)) eqn:Hst; simpl; [|done].
    unfold delete_row. apply lookup_delete_eq. }
  repeat split; auto.
  unfold API.delete at 1, bind, read, write, ret, get_by_id.
  by rewrite Hgone.
Qed.

(** ** Query building *)

Lemma extract_operators_for_each (model : Model) (sp : SearchParameters.t) :
  QueryBuilder._extract_operators model sp
  = for_each (QueryBuilder.filter_operation model) (SearchParameters.filters sp).
Proof.
  unfold QueryBuilder._extract_operators. rewrite for_fold_collect.
  by destruct (for_each _ _).
Qed.

(** C8 (amended).  When the filters and the ordering clauses resolve,
    [create_query] returns the chain: one [filter] call per filter in the
    given order, then one [order_by] call per clause in the given order,
    then [limit] if the limit is truthy, then [offset] if the offset is
    truthy.  For integers truthy means non-zero, so a zero limit or offset
    is skipped and a negative one is applied. *)
Theorem create_query_composition (model : Model) (sp : SearchParameters.t)
  (predicates : list expr) (obs : list OrderBy.t) (clauses : list (string * direction)) :
  for_each (QueryBuilder.filter_operation model) (SearchParameters.filters sp)
  = Ok predicates ->
  SearchParameters.order_by sp = Some obs ->
  for_each (order_clause model) obs = Ok clauses ->
  QueryBuilder.create_query model sp
  = Ok (composed model predicates clauses
          (SearchParameters.limit sp) (SearchParameters.offset sp))
  /\ (forall z, truthy (PInt z) = true <-> z <> 0)
  /\ truthy PNone = false.
Proof.
  intros Hp Ho Hc. split; [|split].
  - unfold QueryBuilder.create_query. rewrite extract_operators_for_each, Hp, Ho.
    simpl. rewrite (for_fold_order _ _ _ _ Hc). reflexivity.
  - intros z. simpl. destruct (Z.eqb_spec z 0); simpl; split; intros; congruence.
  - reflexivity.
Qed.

Lemma create_query_composition_witness :
  QueryBuilder.create_query Sample.Person
    (SearchParameters.mk
       [Filter.mk (PUnicode "age") (PUnicode "gt") (PInt 18) PNone;
        Filter.mk (PUnicode "name") (PUnicode "like") (PUnicode "%y%") PNone]
       [] PNone (PInt 2) (PInt 0)
       (Some [OrderBy.mk (PUnicode "age") (PUnicode "desc");
              OrderBy.mk (PUnicode "name") (PStr "asc")]))
  = Ok (QLimit
          (QOrderBy
             (QOrderBy
                (QFilter
                   (QFilter (QModel "Person") (Compare CGt "age" (Lit (PInt 18))))
                   (Like "name" (Lit (PUnicode "%y%"))))
                "age" Desc)
             "name" Asc)
          (PInt 2)).
Proof.
  apply (create_query_composition Sample.Person
           (SearchParameters.mk
              [Filter.mk (PUnicode "age") (PUnicode "gt") (PInt 18) PNone;
               Filter.mk (PUnicode "name") (PUnicode "like") (PUnicode "%y%") PNone]
              [] PNone (PInt 2) (PInt 0)
              (Some [OrderBy.mk (PUnicode "age") (PUnicode "desc");
                     OrderBy.mk (PUnicode "name") (PStr "asc")]))
           [Compare CGt "age" (Lit (PInt 18)); Like "name" (Lit (PUnicode "%y%"))]
           [OrderBy.mk (PUnicode "age") (PUnicode "desc");
            OrderBy.mk (PUnicode "name") (PStr "asc")]
           [("age", Desc); ("name", Asc)]);
    reflexivity.
Defined.

(** C8 as stated fails: a limit of [-1] is present and not positive, yet
    [limit] is applied. *)
Lemma negative_limit_is_applied :
  QueryBuilder.create_query Sample.Person
    (SearchParameters.mk [] [] PNone (PInt (-1)) PNone (Some []))
  = Ok (QLimit (QModel "Person") (PInt (-1)))
  /\ ~ (0 < -1).
Proof. split; [reflexivity | lia]. Qed.

(** ** Unknown operators *)

Lemma OPERATORS_get_unknown (operator : pyval) (fn : option operator_fn) :
  is_operator operator = false ->
  OPERATORS_get operator = Ok fn -> fn = None.
Proof.
  unfold is_operator, OPERATORS_get, as_text.
  destruct operator; intros Hop Hget; try congruence;
    destruct (registry_lookup s OPERATORS); congruence.
Qed.

Lemma create_operation_unknown (model : Model) (fieldname operator : pyval)
  (argument : operand) (relation : pyval) :
  is_operator operator = false ->
  match QueryBuilder._create_operation model fieldname operator argument relation with
  | Ok _ => False
  | Raise e =>
      forall field, getattr_model model (py_or relation fieldname) = Ok field ->
                    exists msg, e = TypeError msg /\ not_callable_message msg
  end.
Proof.
  intros Hop. unfold QueryBuilder._create_operation.
  destruct (getattr_model model (py_or relation fieldname)) as [field|e]; simpl.
  - destruct (OPERATORS_get operator) as [fn|e] eqn:Hget; simpl.
    + rewrite (OPERATORS_get_unknown _ _ Hop Hget). simpl.
      intros _ _. eexists. split; [reflexivity|]. by left.
    + intros _ _. unfold OPERATORS_get in Hget.
      destruct operator; simpl in Hget; try discriminate;
        injection Hget as <-; eexists; (split; [reflexivity|]);
        unfold not_callable_message; simpl; auto.
  - intros field Hf. discriminate.
Qed.

Lemma filter_operation_unknown (model : Model) (f : Filter.t) :
  is_operator (Filter.operator f) = false ->
  exists e, QueryBuilder.filter_operation model f = Raise e.
Proof.
  intros Hop. unfold QueryBuilder.filter_operation.
  destruct (py_contains "__" (Filter.fieldname f)) as [has_sep|e]; simpl; [|eauto].
  assert (Hmk : forall fname a rel,
             exists e, QueryBuilder._create_operation model fname (Filter.operator f) a rel
                       = Raise e).
  { intros fname a rel.
    pose proof (create_operation_unknown model fname _ a rel Hop) as Hc.
    destruct (QueryBuilder._create_operation _ _ _ _ _); [done|eauto]. }
  assert (Hrest : forall rel fname,
             exists e,
               (if truthy (Filter.otherfield f)
                then (let! other := getattr_model model (Filter.otherfield f) in
                      QueryBuilder._create_operation model fname (Filter.operator f)
                        (Attr other) rel)%result
                else QueryBuilder._create_operation model fname (Filter.operator f)
                       (Lit (Filter.argument f)) rel) = Raise e).
  { intros rel fname. destruct (truthy (Filter.otherfield f)); [|apply Hmk].
    destruct (getattr_model model (Filter.otherfield f)); simpl; [apply Hmk|eauto]. }
  destruct has_sep.
  - destruct (py_split (Filter.fieldname f) "__") as [parts|e]; simpl; [|eauto].
    destruct (unpack2 parts) as [[rel fname]|e]; simpl; [apply Hrest|eauto].
  - simpl. apply Hrest.
Qed.

(** C1 (amended).  A search whose filters include one with an operator
    token that is not a key of [OPERATORS] never yields a query:
    [create_query] raises.  Where the filtered attribute resolves, what is
    raised for that filter is the [TypeError] of calling [None] (or of
    hashing a list or dictionary given as token); its message is fixed and
    does not carry the token.  The module has no error of its own for an
    unknown operator. *)
Theorem unknown_operator_raises (model : Model) (sp : SearchParameters.t) (f : Filter.t) :
  In f (SearchParameters.filters sp) ->
  is_operator (Filter.operator f) = false ->
  (exists e, QueryBuilder.create_query model sp = Raise e)
  /\ (forall fieldname argument relation field,
        getattr_model model (py_or relation fieldname) = Ok field ->
        exists msg,
          QueryBuilder._create_operation model fieldname (Filter.operator f)
            argument relation = Raise (TypeError msg)
          /\ not_callable_message msg).
Proof.
  intros Hin Hop. split.
  - unfold QueryBuilder.create_query. rewrite extract_operators_for_each.
    destruct (for_each _ _) as [ops|e] eqn:Hops; simpl; [|eauto].
    destruct (for_each_Ok_inv _ _ _ f Hops Hin) as [y Hy].
    destruct (filter_operation_unknown model f Hop) as [e He]. congruence.
  - intros fieldname argument relation field Hfield.
    pose proof (create_operation_unknown model fieldname _ argument relation Hop) as Hc.
    destruct (QueryBuilder._create_operation _ _ _ _ _) as [x|e]; [done|].
    destruct (Hc field Hfield) as (msg & -> & Hmsg). eauto.
Qed.

Lemma unknown_operator_raises_witness :
  exists e,
    QueryBuilder.create_query Sample.Person
      (SearchParameters.mk
         [Filter.mk (PUnicode "age") (PUnicode "frobnicate") (PInt 1) PNone]
         [] PNone PNone PNone (Some [])) = Raise e.
Proof.
  apply (unknown_operator_raises Sample.Person
           (SearchParameters.mk
              [Filter.mk (PUnicode "age") (PUnicode "frobnicate") (PInt 1) PNone]
              [] PNone PNone PNone (Some []))
           (Filter.mk (PUnicode "age") (PUnicode "frobnicate") (PInt 1) PNone)).
  - simpl. left. reflexivity.
  - reflexivity.
Defined.

(** C1 as stated fails: for the token [frobnicate] on a known attribute the
    query builder raises the [TypeError] of calling [None], and no error
    that names the token. *)
Lemma frobnicate_is_not_named :
  create_query (lib := Sample.library) Sample.Person
    (Value (PDict [("filters",
                    PList [PDict [("name", PUnicode "age");
                                  ("op", PUnicode "frobnicate");
                                  ("val", PInt 1)]])]))
  = Raise (TypeError "'NoneType' object is not callable")
  /\ names_token (TypeError "'NoneType' object is not callable") "frobnicate" = false.
Proof. split; reflexivity. Qed.

(** ** Decoding the request *)

(** C4 (amended).  When [json.loads] raises [TypeError], [ValueError] or
    [OverflowError] on the query parameter (search) or on the body (both
    PATCH routes and POST), the handler answers 400 with the message
    "Unable to decode data" and the session is untouched.  Nothing is said
    here of JSON that decodes to something other than an object. *)
Theorem undecodable_request_is_400 {lib : Library} {sto : Storage}
  (model : Model) (request : Request) (e : pyexn) (instid : Z) (st : Store) :
  is_decode_error e = true ->
  (json_loads (default "{}" (args_q request)) = Raise e ->
   API.get model request None st = (Done unable_to_decode, st))
  /\ (json_loads (data request) = Raise e ->
      API.patch model request (Some instid) st = (Done unable_to_decode, st)
      /\ API.patch model request None st = (Done unable_to_decode, st)
      /\ API.post model request st = (Done unable_to_decode, st))
  /\ status unable_to_decode = 400
  /\ body unable_to_decode = Some (PDict [("message", PStr "Unable to decode data")]).
Proof.
  intros Hdec. split; [|split; [|split]]; try reflexivity.
  - intros Hq. unfold API.get, API._search. by rewrite Hq, Hdec.
  - intros Hb. split; [|split].
    + unfold API.patch. by rewrite Hb, Hdec.
    + unfold API.patch, API._patch_many. by rewrite Hb, Hdec.
    + unfold API.post. by rewrite Hb, Hdec.
Qed.

Lemma undecodable_request_is_400_witness :
  API.get (lib := Sample.library) (sto := Sample.storage) Sample.Person
    (mkRequest (Some "{oops") "{oops") None Sample.mary
  = (Done (mkResponse 400 (Some (PDict [("message", PStr "Unable to decode data")]))),
     Sample.mary)
  /\ API.post (lib := Sample.library) (sto := Sample.storage) Sample.Person
       (mkRequest (Some "{oops") "{oops") Sample.mary
     = (Done (mkResponse 400 (Some (PDict [("message", PStr "Unable to decode data")]))),
        Sample.mary).
Proof.
  pose proof (undecodable_request_is_400 (lib := Sample.library) (sto := Sample.storage)
                Sample.Person (mkRequest (Some "{oops") "{oops")
                (ValueError "No JSON object could be decoded") 1 Sample.mary
                eq_refl) as (Hget & Hbody & _).
  split.
  - apply Hget. reflexivity.
  - apply Hbody. reflexivity.
Defined.

(** C4 as stated fails: JSON that decodes to a list is not answered with
    400 at any entry point; an [AttributeError] leaves the handler. *)
Lemma json_list_is_a_fault :
  fst (API.get (lib := Sample.library) (sto := Sample.storage) Sample.Person
         (mkRequest (Some "[]") EmptyString) None Sample.mary)
  = Raised (AttributeError "'list' object has no attribute 'get'")
  /\ fst (API.patch (lib := Sample.library) (sto := Sample.storage) Sample.Person
            (mkRequest None "[1]") (Some 1) Sample.mary)
     = Raised (AttributeError "'list' object has no attribute 'keys'")
  /\ fst (API.patch (lib := Sample.library) (sto := Sample.storage) Sample.Person
            (mkRequest None "[1]") None Sample.mary)
     = Raised (AttributeError "'list' object has no attribute 'filters'")
  /\ fst (API.post (lib := Sample.library) (sto := Sample.storage) Sample.Person
            (mkRequest None "[1]") Sample.mary)
     = Raised (AttributeError "'list' object has no attribute 'keys'").
Proof. repeat split; vm_compute; reflexivity. Qed.

(** ** Aggregate functions *)

(** C5.  On the [functions] branch of the search handler the answer follows
    the rows of the batched query: exactly one row gives the flat mapping
    from [<function>__<field>] to value, while no row lets [NoResultFound]
    and several rows let [MultipleResultsFound] leave the handler: the
    [try] of [_search] guards the filter branch only, so the row-count
    fault is not turned into a message here. *)
Theorem functions_follow_row_count {lib : Library} {sto : Storage}
  (model : Model) (request : Request) (data items : pyval) (fs : list pyval)
  (functions : list Function.t) (calls : list ((string * string) * string))
  (st : Store) :
  json_loads (default "{}" (args_q request)) = Ok data ->
  py_contains "functions" data = Ok true ->
  py_getitem data "functions" = Ok items ->
  py_iter items = Ok fs ->
  for_each Function.new fs = Ok functions ->
  for_each (function_call model) functions = Ok calls ->
  API.get model request None st
  = match aggregate st (model_name model) (map fst calls) with
    | [] => (Raised NoResultFound, st)
    | [row] => (Done (jsonify (dict_of_pairs (zip (map snd calls) row))), st)
    | _ :: _ :: _ => (Raised MultipleResultsFound, st)
    end.
Proof.
  intros Hdata Hin Hitems Hfs Hfun Hcalls.
  unfold API.get, API._search. rewrite Hdata.
  unfold bind, lift, run. rewrite Hin, Hitems, Hfs, Hfun.
  unfold _evaluate_functions. rewrite Hcalls. simpl.
  destruct (aggregate st (model_name model) (map fst calls)) as [|row [|row' rows]];
    reflexivity.
Qed.

(** The function [abs] over two stored persons gives two rows, and the
    handler ends in the uncaught [MultipleResultsFound]. *)
Lemma functions_follow_row_count_witness :
  API.get (lib := Sample.library) (sto := Sample.storage) Sample.Person
    (mkRequest (Some (Sample.json "{'functions': [{'name': 'abs', 'field': 'age'}]}"))
       EmptyString)
    None Sample.mary_and_lincoln
  = (Raised MultipleResultsFound, Sample.mary_and_lincoln).
Proof.
  exact (functions_follow_row_count (lib := Sample.library) (sto := Sample.storage)
           Sample.Person
           (mkRequest
              (Some (Sample.json "{'functions': [{'name': 'abs', 'field': 'age'}]}"))
              EmptyString)
           (PDict [("functions",
                    PList [PDict [("name", PUnicode "abs"); ("field", PUnicode "age")]])])
           (PList [PDict [("name", PUnicode "abs"); ("field", PUnicode "age")]])
           [PDict [("name", PUnicode "abs"); ("field", PUnicode "age")]]
           [Function.mk (PUnicode "abs") (PUnicode "age")]
           [(("abs", "age"), "abs__age")]
           Sample.mary_and_lincoln
           eq_refl eq_refl eq_refl eq_refl eq_refl eq_refl).
Defined.

(** With one row the mapping comes back, and on the filter branch the same
    fault of [one()] is answered with a message. *)
Lemma functions_and_filter_examples :
  API.get (lib := Sample.library) (sto := Sample.storage) Sample.Person
    (mkRequest (Some (Sample.json "{'functions': [{'name': 'count', 'field': 'id'}]}"))
       EmptyString)
    None Sample.mary_and_lincoln
  = (Done (jsonify [("count__id", PInt 2)]), Sample.mary_and_lincoln)
  /\ API.get (lib := Sample.library) (sto := Sample.storage) Sample.Person
       (mkRequest (Some (Sample.json "{'type': 'one'}")) EmptyString)
       None Sample.mary_and_lincoln
     = (Done (jsonify [("message", PStr "Multiple results found")]),
        Sample.mary_and_lincoln).
Proof. split; reflexivity. Qed.

(** ** Searching for one instance *)

Lemma Function_from_dictionary_raises (gs : list pyval) (l : list Function.t) :
  for_each SearchParameters.Function_from_dictionary gs = Ok l -> l = [].
Proof.
  destruct gs as [|g gs]; simpl; [congruence|].
  unfold SearchParameters.Function_from_dictionary. simpl. discriminate.
Qed.

(** What [from_dictionary] puts in the parameters it returns. *)
Lemma from_dictionary_fields (d : pydict) (sp : SearchParameters.t) :
  SearchParameters.from_dictionary (PDict d) = Ok sp ->
  SearchParameters.functions sp = []
  /\ SearchParameters.searchtype sp = dict_get d "type" PNone
  /\ SearchParameters.limit sp = dict_get d "limit" PNone
  /\ SearchParameters.offset sp = dict_get d "offset" PNone.
Proof.
  unfold SearchParameters.from_dictionary, py_get, rbind.
  destruct (py_iter (dict_get d "filters" _)) as [fs|e]; [|discriminate].
  destruct (for_each Filter.from_dictionary fs) as [filters|e]; [|discriminate].
  destruct (py_iter (dict_get d "functions" _)) as [gs|e]; [|discriminate].
  destruct (for_each _ gs) as [functions|e] eqn:Hg; [|discriminate].
  apply Function_from_dictionary_raises in Hg as ->.
  destruct (py_iter (dict_get d "order_by" _)) as [os|e]; [|discriminate].
  destruct (for_each OrderBy.new os) as [order_by|e]; [|discriminate].
  unfold SearchParameters.__init__. rewrite andb_false_r.
  intros [= <-]. simpl. auto.
Qed.

(** C6 (amended).  A search whose descriptor is an object of type [one]
    without a [functions] entry, and whose filters and ordering clauses
    resolve, is answered by the rows that the composed query yields: the
    model's rows under the filters in their order, ordered by the clauses,
    and then cut by the limit and the offset where these are truthy.  No
    row gives the message "No result found", exactly one gives the
    serialized instance itself as the body, more give the message
    "Multiple results found". *)
Theorem search_one {lib : Library} {sto : Storage}
  (model : Model) (request : Request) (d : pydict) (sp : SearchParameters.t)
  (predicates : list expr) (obs : list OrderBy.t) (clauses : list (string * direction))
  (st : Store) :
  json_loads (default "{}" (args_q request)) = Ok (PDict d) ->
  mem "functions" (dict_keys d) = false ->
  eq_text (dict_get d "type" PNone) "one" = true ->
  SearchParameters.from_dictionary (PDict d) = Ok sp ->
  for_each (QueryBuilder.filter_operation model) (SearchParameters.filters sp)
  = Ok predicates ->
  SearchParameters.order_by sp = Some obs ->
  for_each (order_clause model) obs = Ok clauses ->
  API.get model request None st
  = match execute st (composed model predicates clauses
                        (dict_get d "limit" PNone) (dict_get d "offset" PNone)) with
    | [] => (Done (jsonify [("message", PStr "No result found")]), st)
    | [x] => (Done (jsonify (to_dict st (model_name model) x
                               (unique (get_relations model)))), st)
    | _ :: _ :: _ => (Done (jsonify [("message", PStr "Multiple results found")]), st)
    end.
Proof.
  intros Hdata Hfun Htype Hsp Hp Ho Hc.
  destruct (from_dictionary_fields d sp Hsp) as (Hnofun & Hst & Hlim & Hoff).
  assert (Hq : QueryBuilder.create_query model sp
               = Ok (composed model predicates clauses
                       (dict_get d "limit" PNone) (dict_get d "offset" PNone))).
  { unfold QueryBuilder.create_query. rewrite extract_operators_for_each, Hp, Ho.
    simpl. rewrite (for_fold_order _ _ _ _ Hc), Hlim, Hoff. reflexivity. }
  unfold API.get, API._search. rewrite Hdata.
  unfold bind, lift. simpl py_contains. rewrite Hfun, Hsp.
  simpl rbind. unfold search. rewrite Hnofun. simpl nonempty. cbv iota.
  simpl create_query. rewrite Hq. simpl rbind. rewrite Hst, Htype.
  destruct (execute st _) as [|x [|y rows]]; reflexivity.
Qed.

Lemma search_one_witness :
  API.get (lib := Sample.library) (sto := Sample.storage) Sample.Person
    (mkRequest (Some (Sample.json "{'type': 'one'}")) EmptyString) None Sample.nobody
  = (Done (jsonify [("message", PStr "No result found")]), Sample.nobody)
  /\ API.get (lib := Sample.library) (sto := Sample.storage) Sample.Person
       (mkRequest
          (Some (Sample.json
                   "{'type': 'one', 'filters': [{'name': 'age', 'op': 'gt', 'val': 20}]}"))
          EmptyString) None Sample.mary_and_lincoln
     = (Done (jsonify [("id", PInt 2); ("name", PUnicode "Lincoln"); ("age", PInt 23);
                       ("computers", PList [])]), Sample.mary_and_lincoln)
  /\ API.get (lib := Sample.library) (sto := Sample.storage) Sample.Person
       (mkRequest
          (Some (Sample.json
                   "{'type': 'one', 'filters': [{'name': 'age', 'op': 'gt', 'val': 18}]}"))
          EmptyString) None Sample.mary_and_lincoln
     = (Done (jsonify [("message", PStr "Multiple results found")]),
        Sample.mary_and_lincoln).
Proof.
  split; [|split].
  - exact (search_one (lib := Sample.library) (sto := Sample.storage) Sample.Person
             (mkRequest (Some (Sample.json "{'type': 'one'}")) EmptyString)
             [("type", PUnicode "one")]
             (SearchParameters.mk [] [] (PUnicode "one") PNone PNone (Some []))
             [] [] [] Sample.nobody
             eq_refl eq_refl eq_refl eq_refl eq_refl eq_refl eq_refl).
  - exact (search_one (lib := Sample.library) (sto := Sample.storage) Sample.Person
             (mkRequest
                (Some (Sample.json
                         "{'type': 'one', 'filters': [{'name': 'age', 'op': 'gt', 'val': 20}]}"))
                EmptyString)
             [("type", PUnicode "one");
              ("filters", PList [PDict [("name", PUnicode "age"); ("op", PUnicode "gt");
                                        ("val", PInt 20)]])]
             (SearchParameters.mk
                [Filter.mk (PUnicode "age") (PUnicode "gt") (PInt 20) PNone]
                [] (PUnicode "one") PNone PNone (Some []))
             [Compare CGt "age" (Lit (PInt 20))] [] [] Sample.mary_and_lincoln
             eq_refl eq_refl eq_refl eq_refl eq_refl eq_refl eq_refl).
  - exact (search_one (lib := Sample.library) (sto := Sample.storage) Sample.Person
             (mkRequest
                (Some (Sample.json
                         "{'type': 'one', 'filters': [{'name': 'age', 'op': 'gt', 'val': 18}]}"))
                EmptyString)
             [("type", PUnicode "one");
              ("filters", PList [PDict [("name", PUnicode "age"); ("op", PUnicode "gt");
                                        ("val", PInt 18)]])]
             (SearchParameters.mk
                [Filter.mk (PUnicode "age") (PUnicode "gt") (PInt 18) PNone]
                [] (PUnicode "one") PNone PNone (Some []))
             [Compare CGt "age" (Lit (PInt 18))] [] [] Sample.mary_and_lincoln
             eq_refl eq_refl eq_refl eq_refl eq_refl eq_refl eq_refl).
Defined.

(** C6 as stated fails: two instances match the filter, yet with a limit of
    one the search of type [one] answers with the first of them and not
    with "Multiple results found". *)
Lemma one_with_limit_hides_a_match :
  length (execute (Storage := Sample.storage) Sample.mary_and_lincoln
            (QFilter (QModel "Person") (Compare CGt "age" (Lit (PInt 18))))) = 2%nat
  /\ QueryBuilder.filter_operation Sample.Person
       (Filter.mk (PUnicode "age") (PUnicode "gt") (PInt 18) PNone)
     = Ok (Compare CGt "age" (Lit (PInt 18)))
  /\ API.get (lib := Sample.library) (sto := Sample.storage) Sample.Person
       (mkRequest
          (Some (Sample.json
                   "{'type': 'one', 'limit': 1, 'filters': [{'name': 'age', 'op': 'gt', 'val': 18}]}"))
          EmptyString) None Sample.mary_and_lincoln
     = (Done (jsonify [("id", PInt 1); ("name", PUnicode "Mary"); ("age", PInt 19);
                       ("computers", PList [])]), Sample.mary_and_lincoln).
Proof. split; [|split]; reflexivity. Qed.

(** ** Updating an instance that does not exist *)

Lemma mem_In (s : string) (l : list string) : mem s l = true <-> In s l.
Proof.
  unfold mem. rewrite existsb_exists. split.
  - intros (x & Hx & Heq). apply String.eqb_eq in Heq. by subst.
  - intros Hin. exists s. split; [done|]. apply String.eqb_refl.
Qed.

Lemma unique_In (x : string) (l : list string) : In x (unique l) -> In x l.
Proof.
  induction l as [|a l IH]; simpl; [done|].
  intros [->|Hin]; [by left|]. apply filter_In in Hin as [Hin _]. right. by apply IH.
Qed.


Section MissingInstance.
Context {lib : Library} {sto : Storage}.
Variable model : Model.








End MissingInstance.



(** * Further properties *)

(** ** Dictionaries and loops *)

Lemma dict_keys_assoc (k : string) (d : pydict) :
  In k (dict_keys d) <-> exists v, assoc k d = Some v.
Proof.
  induction d as [|[k0 v0] d IH]; simpl.
  - split; [done|]. intros [v Hv]. discriminate.
  - destruct (String.eqb_spec k0 k) as [->|Hne].
    + split; eauto.
    + rewrite <- IH. split.
      * intros [Heq|Hin]; [done|]. by apply filter_In in Hin as [Hin _].
      * intros Hin. right. apply filter_In. split; [done|].
        apply negb_true_iff. apply String.eqb_neq. congruence.
Qed.

Lemma dict_set_keys (k key : string) (v : pyval) (d : pydict) :
  In k (map fst (dict_set key v d)) <-> k = key \/ In k (map fst d).
Proof.
  induction d as [|[k0 v0] d IH]; simpl.
  - split; [intros [<-|[]]; by left|intros [->|[]]; by left].
  - destruct (String.eqb_spec k0 key) as [->|Hne]; simpl.
    + split; [intros [<-|Hin]; auto|intros [->|[<-|Hin]]; auto].
    + rewrite IH. split; [intros [<-|[->|Hin]]; auto|intros [->|[<-|Hin]]; auto].
Qed.

Lemma dict_of_pairs_keys (k : string) (pairs : list (string * pyval)) :
  In k (map fst (dict_of_pairs pairs)) <-> In k (map fst pairs).
Proof.
  unfold dict_of_pairs.
  assert (Hgen : forall acc,
             In k (map fst (fold_left (fun d kv => dict_set (fst kv) (snd kv) d) pairs acc))
             <-> In k (map fst pairs) \/ In k (map fst acc)).
  { induction pairs as [|[k0 v0] pairs IH]; intros acc; simpl.
    - split; [by right|intros [[]|Hin]; done].
    - rewrite IH, dict_set_keys. simpl. split.
      + intros [Hin|[->|Hin]]; auto.
      + intros [[<-|Hin]|Hin]; auto. }
  rewrite Hgen. simpl. split; [intros [Hin|[]]; done|by left].
Qed.

Lemma for_each_Forall2 {A B} (g : A -> result B) (l : list A) (ys : list B) :
  for_each g l = Ok ys <-> Forall2 (fun x y => g x = Ok y) l ys.
Proof.
  revert ys. induction l as [|x l IH]; intros ys; simpl.
  - split; [intros [= <-]; constructor|intros Hf; by inversion Hf].
  - split.
    + destruct (g x) as [y|e] eqn:Hx; [|discriminate].
      destruct (for_each g l) as [ys'|e] eqn:Hl; [|discriminate].
      intros [= <-]. constructor; [done|]. by apply IH.
    + intros Hf. inversion Hf as [|x' y l' ys' Hx Hrest]; subst.
      rewrite Hx. apply IH in Hrest. by rewrite Hrest.
Qed.

Lemma for_fold_Ok_inv {A S} (body : S -> A -> result S) (l : list A) (s s' : S) (x : A) :
  for_fold body l s = Ok s' -> In x l -> exists s1 s2, body s1 x = Ok s2.
Proof.
  revert s. induction l as [|a l IH]; intros s Hok Hin; [destruct Hin|].
  simpl in Hok. destruct (body s a) as [s1|e] eqn:Ha; [|discriminate].
  destruct Hin as [->|Hin]; eauto.
Qed.

(** ** Parsing the search descriptor *)

(** X1.  [Filter.from_dictionary] reads [name], [op], [val] and [field],
    a missing key counting as [None].  It returns the filter exactly when
    one of [val] and [field] is truthy and the other is not; in every other
    case it raises, and what it raises is a [NameError] and never the
    [IllegalArgumentError] the module defines.  So an entry with neither
    [val] nor [field], as a null test would be written, is rejected. *)
Theorem Filter_from_dictionary_outcome (d : pydict) :
  Filter.from_dictionary (PDict d)
  = (if xorb (truthy (dict_get d "val" PNone)) (truthy (dict_get d "field" PNone))
     then Ok (Filter.mk (dict_get d "name" PNone) (dict_get d "op" PNone)
                (dict_get d "val" PNone) (dict_get d "field" PNone))
     else Raise (NameError "global name 'ILLEGAL_ARG_MSG' is not defined"))
  /\ (assoc "val" d = None -> assoc "field" d = None ->
      Filter.from_dictionary (PDict d)
      = Raise (NameError "global name 'ILLEGAL_ARG_MSG' is not defined")).
Proof.
  assert (Heq : Filter.from_dictionary (PDict d)
                = if xorb (truthy (dict_get d "val" PNone))
                          (truthy (dict_get d "field" PNone))
                  then Ok (Filter.mk (dict_get d "name" PNone) (dict_get d "op" PNone)
                             (dict_get d "val" PNone) (dict_get d "field" PNone))
                  else Raise (NameError "global name 'ILLEGAL_ARG_MSG' is not defined")).
  { unfold Filter.from_dictionary, py_get, rbind, Filter.__init__, py_and, py_or.
    destruct (truthy (dict_get d "val" PNone)) eqn:Hv,
             (truthy (dict_get d "field" PNone)) eqn:Hf;
      simpl; rewrite ?Hv, ?Hf; reflexivity. }
  split; [exact Heq|].
  intros Hv Hf. rewrite Heq. unfold dict_get. by rewrite Hv, Hf.
Qed.

Lemma Filter_from_dictionary_outcome_witness :
  Filter.from_dictionary (PDict [("name", PUnicode "age"); ("op", PUnicode "is_null")])
  = Raise (NameError "global name 'ILLEGAL_ARG_MSG' is not defined").
Proof.
  apply (Filter_from_dictionary_outcome
           [("name", PUnicode "age"); ("op", PUnicode "is_null")]); reflexivity.
Defined.

(** X2.  A descriptor whose [functions] entry has at least one element
    cannot be parsed: once its filters are read, [from_dictionary] raises
    the [AttributeError] of [Function.from_dictionary], which the named
    tuple does not have.  The module-level [create_query] fails with it. *)
Theorem from_dictionary_rejects_functions {lib : Library} (model : Model) (d : pydict)
  (fs : list pyval) (filters : list Filter.t) (g : pyval) (gs : list pyval) :
  py_iter (dict_get d "filters" (PList [])) = Ok fs ->
  for_each Filter.from_dictionary fs = Ok filters ->
  py_iter (dict_get d "functions" (PList [])) = Ok (g :: gs) ->
  SearchParameters.from_dictionary (PDict d)
  = Raise (AttributeError "type object 'Function' has no attribute 'from_dictionary'")
  /\ create_query model (Value (PDict d))
     = Raise (AttributeError "type object 'Function' has no attribute 'from_dictionary'").
Proof.
  intros Hfs Hfilters Hgs.
  assert (Hparse : SearchParameters.from_dictionary (PDict d)
                   = Raise (AttributeError
                              "type object 'Function' has no attribute 'from_dictionary'")).
  { unfold SearchParameters.from_dictionary, py_get, rbind.
    by rewrite Hfs, Hfilters, Hgs. }
  split; [done|]. unfold create_query. by rewrite Hparse.
Qed.

Lemma from_dictionary_rejects_functions_witness :
  SearchParameters.from_dictionary
    (PDict [("functions",
             PList [PDict [("name", PUnicode "sum"); ("field", PUnicode "age")]])])
  = Raise (AttributeError "type object 'Function' has no attribute 'from_dictionary'").
Proof.
  apply (from_dictionary_rejects_functions (lib := Sample.library) Sample.Person
           [("functions",
             PList [PDict [("name", PUnicode "sum"); ("field", PUnicode "age")]])]
           [] [] (PDict [("name", PUnicode "sum"); ("field", PUnicode "age")]) []);
    reflexivity.
Defined.

(** X3.  What [from_dictionary] returns keeps the descriptor's order: its
    filters are the parsed entries of [filters], one by one and in the same
    order, its ordering clauses those of [order_by]; it has no functions,
    and [type], [limit] and [offset] are taken over as they are. *)
Theorem from_dictionary_keeps_order (d : pydict) (sp : SearchParameters.t) :
  SearchParameters.from_dictionary (PDict d) = Ok sp ->
  exists fs os obs,
    py_iter (dict_get d "filters" (PList [])) = Ok fs
    /\ Forall2 (fun x f => Filter.from_dictionary x = Ok f) fs (SearchParameters.filters sp)
    /\ py_iter (dict_get d "order_by" (PList [])) = Ok os
    /\ SearchParameters.order_by sp = Some obs
    /\ Forall2 (fun x o => OrderBy.new x = Ok o) os obs
    /\ SearchParameters.functions sp = []
    /\ SearchParameters.searchtype sp = dict_get d "type" PNone
    /\ SearchParameters.limit sp = dict_get d "limit" PNone
    /\ SearchParameters.offset sp = dict_get d "offset" PNone.
Proof.
  intros Hsp. destruct (from_dictionary_fields d sp Hsp) as (Hfun & Htype & Hlim & Hoff).
  revert Hsp. unfold SearchParameters.from_dictionary, py_get, rbind.
  destruct (py_iter (dict_get d "filters" _)) as [fs|e]; [|discriminate].
  destruct (for_each Filter.from_dictionary fs) as [filters|e] eqn:Hf; [|discriminate].
  destruct (py_iter (dict_get d "functions" _)) as [gs|e]; [|discriminate].
  destruct (for_each _ gs) as [functions|e] eqn:Hg; [|discriminate].
  apply Function_from_dictionary_raises in Hg as ->.
  destruct (py_iter (dict_get d "order_by" _)) as [os|e]; [|discriminate].
  destruct (for_each OrderBy.new os) as [order_by|e] eqn:Ho; [|discriminate].
  unfold SearchParameters.__init__. rewrite andb_false_r.
  intros [= <-]. simpl in *. exists fs, os, order_by.
  apply for_each_Forall2 in Hf. apply for_each_Forall2 in Ho.
  repeat (split; [done|]). done.
Qed.

Lemma from_dictionary_keeps_order_witness :
  exists fs os obs,
    py_iter (dict_get [("filters",
                        PList [PDict [("name", PUnicode "age"); ("op", PUnicode "gt");
                                      ("val", PInt 18)];
                               PDict [("name", PUnicode "name"); ("op", PUnicode "like");
                                      ("val", PUnicode "%y%")]])]
               "filters" (PList [])) = Ok fs
    /\ Forall2 (fun x f => Filter.from_dictionary x = Ok f) fs
         [Filter.mk (PUnicode "age") (PUnicode "gt") (PInt 18) PNone;
          Filter.mk (PUnicode "name") (PUnicode "like") (PUnicode "%y%") PNone]
    /\ py_iter (PList []) = Ok os
    /\ Some [] = Some obs
    /\ Forall2 (fun x o => OrderBy.new x = Ok o) os obs
    /\ @nil Function.t = []
    /\ PNone = PNone /\ PNone = PNone /\ PNone = PNone.
Proof.
  exact (from_dictionary_keeps_order
           [("filters",
             PList [PDict [("name", PUnicode "age"); ("op", PUnicode "gt");
                           ("val", PInt 18)];
                    PDict [("name", PUnicode "name"); ("op", PUnicode "like");
                           ("val", PUnicode "%y%")]])]
           (SearchParameters.mk
              [Filter.mk (PUnicode "age") (PUnicode "gt") (PInt 18) PNone;
               Filter.mk (PUnicode "name") (PUnicode "like") (PUnicode "%y%") PNone]
              [] PNone PNone PNone (Some []))
           eq_refl).
Defined.

(** X4.  Parameters built by the constructor with its default [order_by]
    ([None]) cannot be turned into a query: [create_query] raises, and when
    the filters resolve it is the [TypeError] of iterating over [None]. *)
Theorem create_query_needs_order_by (model : Model) (sp : SearchParameters.t) :
  SearchParameters.order_by sp = None ->
  (exists e, QueryBuilder.create_query model sp = Raise e)
  /\ (forall predicates,
        for_each (QueryBuilder.filter_operation model) (SearchParameters.filters sp)
        = Ok predicates ->
        QueryBuilder.create_query model sp
        = Raise (TypeError "'NoneType' object is not iterable")).
Proof.
  intros Hnone. unfold QueryBuilder.create_query.
  rewrite extract_operators_for_each, Hnone. split.
  - destruct (for_each _ _); simpl; eauto.
  - intros predicates ->. reflexivity.
Qed.

Lemma create_query_needs_order_by_witness :
  QueryBuilder.create_query Sample.Person
    (SearchParameters.mk [] [] PNone PNone PNone None)
  = Raise (TypeError "'NoneType' object is not iterable").
Proof.
  apply (proj2 (create_query_needs_order_by Sample.Person
                  (SearchParameters.mk [] [] PNone PNone PNone None) eq_refl) []).
  reflexivity.
Defined.

(** ** Field names and operators *)

Lemma append_empty_r (s : string) : s +:+ EmptyString = s.
Proof.
  induction s as [|c s IH]; [done|].
  change (String c (s +:+ EmptyString) = String c s). by rewrite IH.
Qed.

Lemma append_cons_r (s : string) (c : ascii) (t : string) :
  (s +:+ String c EmptyString) +:+ t = s +:+ String c t.
Proof.
  induction s as [|a s IH]; [done|].
  change (String a ((s +:+ String c EmptyString) +:+ t) = String a (s +:+ String c t)).
  by rewrite IH.
Qed.

Lemma substring_in_cons (sep : string) (c : ascii) (s : string) :
  substring_in sep (String c s)
  = String.prefix sep (String c s) || substring_in sep s.
Proof. reflexivity. Qed.

Lemma split_go_cons (sep cur : string) (c : ascii) (s : string) :
  split_go sep 0 cur (String c s)
  = if String.prefix sep (String c s)
    then cur :: split_go sep (String.length sep - 1) EmptyString s
    else split_go sep 0 (cur +:+ String c EmptyString) s.
Proof. reflexivity. Qed.

Lemma split_go_no_separator (sep cur s : string) :
  substring_in sep s = false -> split_go sep 0 cur s = [cur +:+ s].
Proof.
  revert cur. induction s as [|c s IH]; intros cur.
  - intros _. by rewrite append_empty_r.
  - rewrite substring_in_cons, split_go_cons.
    intros Hno. apply orb_false_iff in Hno as [Hp Hrest].
    rewrite Hp, (IH _ Hrest). by rewrite append_cons_r.
Qed.

(** A name without the separator is one piece. *)
Lemma split_no_separator (sep s : string) :
  substring_in sep s = false -> split sep s = [s].
Proof. intros Hno. unfold split. by rewrite (split_go_no_separator _ _ _ Hno). Qed.

Lemma split_pieces_separator (sep s : string) :
  length (split sep s) <> 1%nat -> substring_in sep s = true.
Proof.
  intros Hlen. destruct (substring_in sep s) eqn:Hs; [done|].
  rewrite (split_no_separator _ _ Hs) in Hlen. done.
Qed.

Lemma create_operation_known (model : Model) (fieldname relation : pyval)
  (tok attr : string) (op : operator_fn) (arg : operand) :
  as_text (py_or relation fieldname) = Some attr ->
  column attr (get_columns model) <> None ->
  registry_lookup tok OPERATORS = Some op ->
  QueryBuilder._create_operation model fieldname (PUnicode tok) arg relation
  = op attr arg fieldname.
Proof.
  intros Hattr Hcol Hop.
  unfold QueryBuilder._create_operation, getattr_model, OPERATORS_get.
  rewrite Hattr. destruct (column attr (get_columns model)); [|done].
  unfold rbind. by rewrite Hop.
Qed.

(** X5.  A filter on an attribute of the model whose name has no [__],
    with an operator of the table: the predicate is the table's entry
    applied to that attribute and to the literal [val]; when [field] is
    given instead, it is applied to that other attribute of the model and
    the literal plays no part. *)
Theorem filter_operation_plain (model : Model) (name tok : string) (op : operator_fn)
  (val other : pyval) :
  substring_in "__" name = false ->
  column name (get_columns model) <> None ->
  registry_lookup tok OPERATORS = Some op ->
  (truthy other = false ->
   QueryBuilder.filter_operation model
     (Filter.mk (PUnicode name) (PUnicode tok) val other)
   = op name (Lit val) (PUnicode name))
  /\ (forall o, truthy other = true -> as_text other = Some o ->
                column o (get_columns model) <> None ->
                QueryBuilder.filter_operation model
                  (Filter.mk (PUnicode name) (PUnicode tok) val other)
                = op name (Attr o) (PUnicode name)).
Proof.
  intros Hno Hcol Hop.
  assert (Hstart : forall k : pyval * pyval -> result expr,
             (let! has_sep := py_contains "__" (PUnicode name) in
              let! p := (if has_sep : bool
                         then let! parts := py_split (PUnicode name) "__" in unpack2 parts
                         else Ok (PNone, PUnicode name)) in
              k p)%result = k (PNone, PUnicode name)).
  { intros k. unfold py_contains. rewrite Hno. reflexivity. }
  split.
  - intros Hother. unfold QueryBuilder.filter_operation.
    cbn [Filter.fieldname Filter.argument Filter.otherfield Filter.operator].
    rewrite Hstart, Hother. by apply create_operation_known.
  - intros o Hother Ho Hocol. unfold QueryBuilder.filter_operation.
    cbn [Filter.fieldname Filter.argument Filter.otherfield Filter.operator].
    rewrite Hstart, Hother. unfold getattr_model at 1. rewrite Ho.
    destruct (column o (get_columns model)); [|done].
    cbn [rbind]. by apply create_operation_known.
Qed.

Lemma filter_operation_plain_witness :
  QueryBuilder.filter_operation Sample.Person
    (Filter.mk (PUnicode "age") (PUnicode "gt") (PInt 18) PNone)
  = Ok (Compare CGt "age" (Lit (PInt 18)))
  /\ QueryBuilder.filter_operation Sample.Person
       (Filter.mk (PUnicode "age") (PUnicode "gt") PNone (PUnicode "id"))
     = Ok (Compare CGt "age" (Attr "id")).
Proof.
  split.
  - apply (filter_operation_plain Sample.Person "age" "gt"
             (fun f a fn => Ok (Compare CGt f a)) (PInt 18) PNone);
      [reflexivity|discriminate|reflexivity|reflexivity].
  - apply (filter_operation_plain Sample.Person "age" "gt"
             (fun f a fn => Ok (Compare CGt f a)) PNone (PUnicode "id"));
      [reflexivity|discriminate|reflexivity|reflexivity|reflexivity|discriminate].
Defined.

(** X6.  A filter named [<relation>__<leaf>]: the attribute looked up on
    the model is the relation, not the leaf, and the operator is applied
    to that relation attribute.  The leaf is not looked up on the model; it
    is only handed to the operator as its field name, which [has] and [any]
    use as their keyword and the other operators ignore. *)
Theorem filter_operation_relation (model : Model) (name rel leaf tok : string)
  (op : operator_fn) (val other : pyval) :
  split "__" name = [rel; leaf] ->
  rel <> EmptyString ->
  column rel (get_columns model) <> None ->
  registry_lookup tok OPERATORS = Some op ->
  truthy other = false ->
  QueryBuilder.filter_operation model
    (Filter.mk (PUnicode name) (PUnicode tok) val other)
  = op rel (Lit val) (PUnicode leaf).
Proof.
  intros Hsplit Hrel Hcol Hop Hother.
  assert (Hsep : substring_in "__" name = true).
  { apply split_pieces_separator. by rewrite Hsplit. }
  unfold QueryBuilder.filter_operation, py_contains, py_split.
  cbn [Filter.fieldname Filter.argument Filter.otherfield Filter.operator].
  rewrite Hsep, Hsplit, Hother. cbn [rbind map unpack2].
  apply create_operation_known; [|done|done].
  unfold py_or. cbn [truthy]. apply String.eqb_neq in Hrel. by rewrite Hrel.
Qed.

Lemma filter_operation_relation_witness :
  QueryBuilder.filter_operation Sample.Person
    (Filter.mk (PUnicode "computers__name") (PUnicode "any") (PUnicode "pc") PNone)
  = Ok (Any_ "computers" "name" (Lit (PUnicode "pc")))
  /\ QueryBuilder.filter_operation Sample.Person
       (Filter.mk (PUnicode "computers__name") (PUnicode "eq") (PUnicode "pc") PNone)
     = Ok (Compare CEq "computers" (Lit (PUnicode "pc"))).
Proof.
  split.
  - apply (filter_operation_relation Sample.Person "computers__name"
             "computers" "name" "any"
             (fun f a fn => (let! kw := keyword fn in Ok (Any_ f kw a))%result)
             (PUnicode "pc") PNone);
      [reflexivity|discriminate|discriminate|reflexivity|reflexivity].
  - apply (filter_operation_relation Sample.Person "computers__name"
             "computers" "name" "eq" (fun f a fn => Ok (Compare CEq f a))
             (PUnicode "pc") PNone);
      [reflexivity|discriminate|discriminate|reflexivity|reflexivity].
Defined.

(** X7.  Two edge cases of the separator.  A name that splits into more
    than two pieces (as [a__b__c] does) makes the query builder raise the
    [ValueError] of the unpacking, whatever the operator.  A name that
    starts with the separator has an empty relation, which counts as none:
    the filter then is on the leaf itself, as an attribute of the model. *)
Theorem filter_operation_separator_edges (model : Model) (name tok : string)
  (val other : pyval) :
  ((2 < length (split "__" name))%nat ->
   QueryBuilder.filter_operation model
     (Filter.mk (PUnicode name) (PUnicode tok) val other)
   = Raise (ValueError "too many values to unpack"))
  /\ (forall leaf op,
        split "__" name = [EmptyString; leaf] ->
        column leaf (get_columns model) <> None ->
        registry_lookup tok OPERATORS = Some op ->
        truthy other = false ->
        QueryBuilder.filter_operation model
          (Filter.mk (PUnicode name) (PUnicode tok) val other)
        = op leaf (Lit val) (PUnicode leaf)).
Proof.
  split.
  - intros Hlen.
    assert (Hsep : substring_in "__" name = true).
    { apply split_pieces_separator. lia. }
    unfold QueryBuilder.filter_operation, py_contains, py_split.
    cbn [Filter.fieldname Filter.argument Filter.otherfield Filter.operator].
    rewrite Hsep. cbn [rbind].
    destruct (split "__" name) as [|a [|b [|c rest]]]; simpl in Hlen; try lia.
    reflexivity.
  - intros leaf op Hsplit Hcol Hop Hother.
    assert (Hsep : substring_in "__" name = true).
    { apply split_pieces_separator. by rewrite Hsplit. }
    unfold QueryBuilder.filter_operation, py_contains, py_split.
    cbn [Filter.fieldname Filter.argument Filter.otherfield Filter.operator].
    rewrite Hsep, Hsplit, Hother. cbn [rbind map unpack2].
    by apply create_operation_known.
Qed.

Lemma filter_operation_separator_edges_witness :
  QueryBuilder.filter_operation Sample.Person
    (Filter.mk (PUnicode "computers__owner__name") (PUnicode "eq") (PInt 1) PNone)
  = Raise (ValueError "too many values to unpack")
  /\ QueryBuilder.filter_operation Sample.Person
       (Filter.mk (PUnicode "__age") (PUnicode "eq") (PInt 1) PNone)
     = Ok (Compare CEq "age" (Lit (PInt 1))).
Proof.
  split.
  - apply (filter_operation_separator_edges Sample.Person "computers__owner__name"
             "eq" (PInt 1) PNone). simpl. lia.
  - apply (proj2 (filter_operation_separator_edges Sample.Person "__age" "eq"
                    (PInt 1) PNone)
             "age" (fun f a fn => Ok (Compare CEq f a)));
      [reflexivity|discriminate|reflexivity|reflexivity].
Defined.

(** ** Searching *)

(** X8.  A search whose descriptor has no [functions] entry and a type
    other than [one] answers 200 with the serialized rows of the composed
    query, in the order the query yields them, inside the envelope
    [{"objects": [...]}]; the session is not changed. *)
Theorem search_many {lib : Library} {sto : Storage}
  (model : Model) (request : Request) (d : pydict) (q : Query) (st : Store) :
  json_loads (default "{}" (args_q request)) = Ok (PDict d) ->
  mem "functions" (dict_keys d) = false ->
  eq_text (dict_get d "type" PNone) "one" = false ->
  create_query model (Value (PDict d)) = Ok q ->
  API.get model request None st
  = (Done (jsonify
             [("objects",
               PList (map (fun x => PDict (to_dict st (model_name model) x
                                             (unique (get_relations model))))
                          (execute st q)))]), st).
Proof.
  intros Hdata Hfun Htype Hq.
  unfold API.get, API._search. rewrite Hdata.
  unfold bind, lift. simpl py_contains. rewrite Hfun.
  unfold create_query in Hq.
  destruct (SearchParameters.from_dictionary (PDict d)) as [sp|e] eqn:Hsp;
    [|discriminate].
  simpl in Hq. simpl rbind.
  destruct (from_dictionary_fields d sp Hsp) as (Hnofun & Hst & _).
  unfold search. rewrite Hnofun. simpl nonempty. cbv iota.
  simpl create_query. rewrite Hq. simpl rbind. rewrite Hst, Htype.
  reflexivity.
Qed.

Lemma search_many_witness :
  API.get (lib := Sample.library) (sto := Sample.storage) Sample.Person
    (mkRequest
       (Some (Sample.json
                "{'filters': [{'name': 'age', 'op': 'gt', 'val': 20}], 'type': 'all'}"))
       EmptyString)
    None Sample.mary_and_lincoln
  = (Done (jsonify
             [("objects",
               PList [PDict [("id", PInt 2); ("name", PUnicode "Lincoln");
                             ("age", PInt 23); ("computers", PList [])]])]),
     Sample.mary_and_lincoln).
Proof.
  exact (search_many (lib := Sample.library) (sto := Sample.storage) Sample.Person
           (mkRequest
              (Some (Sample.json
                       "{'filters': [{'name': 'age', 'op': 'gt', 'val': 20}], 'type': 'all'}"))
              EmptyString)
           [("filters", PList [PDict [("name", PUnicode "age"); ("op", PUnicode "gt");
                                      ("val", PInt 20)]]);
            ("type", PUnicode "all")]
           (QFilter (QModel "Person") (Compare CGt "age" (Lit (PInt 20))))
           Sample.mary_and_lincoln eq_refl eq_refl eq_refl eq_refl).
Defined.

(** X9.  Without a [q] parameter the search is over the bare query of the
    model (no filter, order, limit or offset), given that [json.loads]
    decodes the default text [{}] to the empty object. *)
Theorem search_without_q_lists_all {lib : Library} {sto : Storage}
  (model : Model) (request : Request) (st : Store) :
  json_loads "{}" = Ok (PDict []) ->
  args_q request = None ->
  API.get model request None st
  = (Done (jsonify
             [("objects",
               PList (map (fun x => PDict (to_dict st (model_name model) x
                                             (unique (get_relations model))))
                          (execute st (QModel (model_name model)))))]), st).
Proof.
  intros Hloads Hq.
  unfold API.get, API._search. rewrite Hq.
  change (default "{}" None) with "{}". rewrite Hloads.
  reflexivity.
Qed.

Lemma search_without_q_lists_all_witness :
  API.get (lib := Sample.library) (sto := Sample.storage) Sample.Person
    (mkRequest None EmptyString) None Sample.mary
  = (Done (jsonify
             [("objects",
               PList [PDict [("id", PInt 1); ("name", PUnicode "Mary");
                             ("age", PInt 19); ("computers", PList [])]])]),
     Sample.mary).
Proof.
  exact (search_without_q_lists_all (lib := Sample.library) (sto := Sample.storage)
           Sample.Person (mkRequest None EmptyString) Sample.mary eq_refl eq_refl).
Defined.

(** X10.  However a search request ends, it leaves the session as it was,
    and it never aborts.  When it answers, the status is 200 or 400 and the
    body is a JSON object: a list of rows is never the top-level value. *)
Theorem search_reads_only {lib : Library} {sto : Storage}
  (model : Model) (request : Request) (st st' : Store) (o : outcome Response) :
  API.get model request None st = (o, st') ->
  st' = st
  /\ match o with
     | Done r => (status r = 200 \/ status r = 400) /\ exists d, body r = Some (PDict d)
     | Raised _ => True
     | Aborted _ => False
     end.
Proof.
  assert (Hrespond : forall result s o1 s1,
             API.respond result s = (o1, s1) ->
             s1 = s /\ match o1 with
                       | Done r => (status r = 200 \/ status r = 400)
                                   /\ exists d, body r = Some (PDict d)
                       | Raised _ => True
                       | Aborted _ => False
                       end).
  { intros result s o1 s1. unfold API.respond, ret, raise.
    destruct result; intros [= <- <-]; simpl; eauto. }
  unfold API.get, API._search.
  destruct (json_loads (default "{}" (args_q request))) as [data|e].
  - unfold bind, lift.
    destruct (py_contains "functions" data) as [[|]|e]; [| |intros [= <- <-]; done].
    + destruct (py_getitem data "functions") as [items|e]; [|intros [= <- <-]; done].
      destruct (py_iter items) as [fs|e]; [|intros [= <- <-]; done].
      destruct (for_each Function.new fs) as [functions|e]; [|intros [= <- <-]; done].
      unfold run, lift.
      destruct (_evaluate_functions st model functions) as [result|e];
        [apply Hrespond|intros [= <- <-]; done].
    + destruct (let! searchparams := SearchParameters.from_dictionary data in
                search st model searchparams)%result as [result|e];
        [apply Hrespond|].
      destruct e; intros [= <- <-]; simpl; eauto.
  - destruct (is_decode_error e); unfold ret, raise; intros [= <- <-]; simpl; eauto.
Qed.

Lemma search_reads_only_witness :
  Sample.mary_and_lincoln = Sample.mary_and_lincoln
  /\ ((200 = 200 \/ 200 = 400)
      /\ exists d, Some (PDict [("message", PStr "Multiple results found")])
                   = Some (PDict d)).
Proof.
  exact (search_reads_only (lib := Sample.library) (sto := Sample.storage)
           Sample.Person (mkRequest (Some (Sample.json "{'type': 'one'}")) EmptyString)
           Sample.mary_and_lincoln Sample.mary_and_lincoln
           (Done (jsonify [("message", PStr "Multiple results found")])) eq_refl).
Defined.

(** ** Retrieval, deletion and empty updates *)

(** X11.  After [delete] the instance is gone: retrieving the same id right
    after it aborts with 404 and leaves the session as the deletion left
    it, whether or not there was an instance and whatever the deletion did
    to the other rows. *)
Theorem delete_then_get {lib : Library} {sto : Storage}
  (model : Model) (request : Request) (instid : Z) (st : Store) :
  API.get model request (Some instid) (snd (API.delete model instid st))
  = (Aborted 404, snd (API.delete model instid st)).
Proof.
  assert (Hgone : snd (API.delete model instid st) !! (model_name model, instid)
                  = None).
  { unfold API.delete, bind, read, write, ret, get_by_id.
    destruct (st !! (model_name model, instid)) eqn:Hst; simpl; [|done].
    unfold delete_row. apply lookup_delete_eq. }
  unfold API.get, bind, read, get_by_id. by rewrite Hgone.
Qed.

(** X12.  A PATCH to an instance whose body decodes to something of length
    zero (an empty object, list or string) answers 204 and changes nothing,
    whether or not the instance exists.  The PATCH to the collection does
    the same for the empty object, but for an empty list it raises: it
    builds the query before it looks at the length. *)
Theorem patch_empty_body {lib : Library} {sto : Storage}
  (model : Model) (request : Request) (body : pyval) (instid : Z) (st : Store) :
  json_loads (data request) = Ok body ->
  py_len body = Ok 0 ->
  API.patch model request (Some instid) st = (Done (make_response 204), st)
  /\ (body = PDict [] ->
      API.patch model request None st = (Done (make_response 204), st))
  /\ (body = PList [] ->
      API.patch model request None st
      = (Raised (AttributeError "'list' object has no attribute 'filters'"), st)).
Proof.
  intros Hdata Hlen. split; [|split].
  - unfold API.patch. rewrite Hdata. unfold bind, lift. by rewrite Hlen.
  - intros ->. unfold API.patch, API._patch_many. by rewrite Hdata.
  - intros ->. unfold API.patch, API._patch_many. by rewrite Hdata.
Qed.

Lemma patch_empty_body_witness :
  API.patch (lib := Sample.library) (sto := Sample.storage) Sample.Person
    (mkRequest None "{}") (Some 1) Sample.mary
  = (Done (make_response 204), Sample.mary)
  /\ API.patch (lib := Sample.library) (sto := Sample.storage) Sample.Person
       (mkRequest None "[]") None Sample.mary
     = (Raised (AttributeError "'list' object has no attribute 'filters'"), Sample.mary).
Proof.
  split.
  - apply (patch_empty_body (lib := Sample.library) (sto := Sample.storage)
             Sample.Person (mkRequest None "{}") (PDict []) 1 Sample.mary);
      reflexivity.
  - apply (patch_empty_body (lib := Sample.library) (sto := Sample.storage)
             Sample.Person (mkRequest None "[]") (PList []) 1 Sample.mary);
      reflexivity.
Defined.

(** ** Creation *)

Lemma In_unique (x : string) (l : list string) : In x l -> In x (unique l).
Proof.
  induction l as [|a l IH]; simpl; [done|].
  intros [->|Hin]; [by left|].
  destruct (String.eqb_spec x a) as [->|Hne]; [by left|].
  right. apply filter_In. split; [by apply IH|].
  apply negb_true_iff. by apply String.eqb_neq.
Qed.

Lemma column_In (k : string) (cols : list (string * attrkind)) :
  column k cols <> None <-> In k (map fst cols).
Proof.
  induction cols as [|[k0 a] cols IH]; simpl; [split; done|].
  destruct (String.eqb_spec k0 k) as [->|Hne].
  - split; [by left|done].
  - rewrite IH. split; [by right|]. intros [Heq|Hin]; [done|done].
Qed.

Lemma filter_none {A} (f : A -> bool) (l : list A) :
  (forall x, In x l -> f x = false) -> List.filter f l = [].
Proof.
  induction l as [|a l IH]; simpl; [done|].
  intros Hall. rewrite (Hall a); [|by left]. apply IH. intros x Hx. apply Hall. by right.
Qed.

Lemma select_fields_present (d : pydict) (l : list string) :
  (forall k, In k l -> In k (dict_keys d)) ->
  API.select_fields (PDict d) l
  = Ok (dict_of_pairs (map (fun k => (k, dict_get d k PNone)) l)).
Proof.
  intros Hall. unfold API.select_fields.
  assert (Hpairs : for_each (fun field => (let! v := py_getitem (PDict d) field in
                                           Ok (field, v))%result) l
                   = Ok (map (fun k => (k, dict_get d k PNone)) l)).
  { induction l as [|k l IH]; [done|].
    destruct (proj1 (dict_keys_assoc k d) (Hall k (or_introl eq_refl))) as [v Hv].
    assert (Hk : (let! v := py_getitem (PDict d) k in Ok (k, v))%result
                 = Ok (k, dict_get d k PNone)).
    { unfold py_getitem, dict_get. by rewrite Hv. }
    cbn [for_each map]. rewrite Hk, IH; [done|].
    intros k' Hk'. apply Hall. by right. }
  by rewrite Hpairs.
Qed.



(** The keywords [post] gives the constructor of the model: the keys of the
    body that are columns of the model and not relations of it. *)
Lemma created_fields_keys (model : Model) (d : pydict) (k : string) :
  In k (map fst (created_fields model d))
  <-> In k (dict_keys d)
      /\ column k (get_columns model) <> None
      /\ ~ In k (get_relations model).
Proof.
  unfold created_fields. rewrite dict_of_pairs_keys, map_map. simpl.
  rewrite map_id, filter_In, filter_In, column_In.
  rewrite negb_true_iff, <- not_true_iff_false, !mem_In.
  split.
  - intros [[Hcol Hkey] Hrel]. apply unique_In in Hcol. done.
  - intros (Hkey & Hcol & Hrel). apply In_unique in Hcol. done.
Qed.

Lemma assoc_not_key (k : string) (d : pydict) :
  ~ In k (map fst d) -> assoc k d = None.
Proof.
  induction d as [|[k0 v0] d IH]; simpl; [done|].
  intros Hk. destruct (String.eqb_spec k0 k) as [->|Hne]; [destruct Hk; by left|].
  apply IH. intros Hin. apply Hk. by right.
Qed.

Lemma assoc_dict_set (k key : string) (v : pyval) (d : pydict) :
  assoc k (dict_set key v d) = if String.eqb key k then Some v else assoc k d.
Proof.
  induction d as [|[k0 v0] d IH]; simpl; [done|].
  destruct (String.eqb_spec k0 key) as [->|Hne]; simpl.
  - by destruct (String.eqb key k).
  - rewrite IH. destruct (String.eqb_spec k0 k) as [Heq|Hne']; [|done].
    destruct (String.eqb_spec key k) as [Hkey|_]; [congruence|done].
Qed.

Lemma assoc_dict_of_pairs (f : string -> pyval) (l : list string) (k : string) :
  In k l -> assoc k (dict_of_pairs (map (fun k => (k, f k)) l)) = Some (f k).
Proof.
  unfold dict_of_pairs. intros Hin.
  assert (Hgen : forall acc,
             In k l \/ assoc k acc = Some (f k) ->
             assoc k (fold_left (fun d kv => dict_set (fst kv) (snd kv) d)
                        (map (fun k => (k, f k)) l) acc) = Some (f k)).
  { clear Hin. induction l as [|a l IH]; intros acc Hk; simpl.
    - by destruct Hk as [[]|Hk].
    - apply IH. rewrite assoc_dict_set.
      destruct (String.eqb_spec a k) as [->|Hne]; [by right|].
      destruct Hk as [[Heq|Hin]|Hk]; [done|by left|by right]. }
  apply Hgen. by left.
Qed.

(** X14.  When [post] answers for a body object, the answer is 201 with the
    key of a row of the session, and what that row has from the body is
    this: for a key of the body that is a column of the model and not one
    of its relations, the body's value; for a key that is not a column of
    the model, nothing, so the keys of the body that the model does not have
    are dropped without an error. *)
Theorem post_keeps_body_columns {lib : Library} {sto : Storage}
  (model : Model) (request : Request) (d : pydict) (st st' : Store) (r : Response) :
  json_loads (data request) = Ok (PDict d) ->
  API.post model request st = (Done r, st') ->
  exists id e,
    r = jsonify_status_code 201 [("id", PInt id)]
    /\ st' !! (model_name model, id) = Some e
    /\ (forall k, In k (dict_keys d) ->
                  column k (get_columns model) <> None ->
                  ~ In k (get_relations model) ->
                  assoc k (ent_fields e) = assoc k d)
    /\ (forall k, column k (get_columns model) = None ->
                  assoc k (ent_fields e) = None).
Proof.
  intros Hdata. unfold API.post. rewrite Hdata.
  unfold bind at 1, lift at 1. simpl py_keys. cbv iota.
  unfold bind at 1, lift at 1.
  rewrite select_fields_present.
  2:{ intros k Hk. apply filter_In in Hk as [Hk _].
      apply filter_In in Hk as [_ Hk]. by apply mem_In. }
  fold (created_fields model d).
  unfold bind at 1.
  match goal with
  | |- context [fold_M ?f ?l ?a st] =>
      destruct (fold_M f l a st) as [[rel|x|c] s1]; [|discriminate|discriminate]
  end.
  unfold bind, ret, API.add_and_commit.
  match goal with
  | |- context [s1 !! ?key] => destruct (s1 !! key) eqn:Hfree; [discriminate|]
  end.
  intros [= <- <-]. eexists _, (mkEntity _ (created_fields model d) rel).
  split; [reflexivity|]. split; [apply lookup_insert_eq|]. simpl. split.
  - intros k Hk Hcol Hrel. unfold created_fields. rewrite assoc_dict_of_pairs.
    + unfold dict_get. apply dict_keys_assoc in Hk as [v Hv]. by rewrite Hv.
    + apply filter_In. split.
      * apply filter_In. split; [by apply In_unique, column_In|by apply mem_In].
      * apply negb_true_iff. destruct (mem k (get_relations model)) eqn:Hm; [|done].
        apply mem_In in Hm. destruct (Hrel Hm).
  - intros k Hcol. apply assoc_not_key. intros Hin.
    apply created_fields_keys in Hin as (_ & Hc & _). done.
Qed.

Lemma post_keeps_body_columns_witness :
  exists id e,
    jsonify_status_code 201 [("id", PInt 2)] = jsonify_status_code 201 [("id", PInt id)]
    /\ (<[("Person", 2) := mkEntity 2 [("name", PUnicode "Ann")] []]> Sample.mary)
         !! (model_name Sample.Person, id) = Some e
    /\ (forall k, In k (dict_keys [("name", PUnicode "Ann"); ("nickname", PUnicode "A")]) ->
                  column k (get_columns Sample.Person) <> None ->
                  ~ In k (get_relations Sample.Person) ->
                  assoc k (ent_fields e)
                  = assoc k [("name", PUnicode "Ann"); ("nickname", PUnicode "A")])
    /\ (forall k, column k (get_columns Sample.Person) = None ->
                  assoc k (ent_fields e) = None).
Proof.
  apply (post_keeps_body_columns (lib := Sample.library) (sto := Sample.storage)
           Sample.Person
           (mkRequest None (Sample.json "{'name': 'Ann', 'nickname': 'A'}"))
           [("name", PUnicode "Ann"); ("nickname", PUnicode "A")] Sample.mary
           (<[("Person", 2) := mkEntity 2 [("name", PUnicode "Ann")] []]> Sample.mary)
           (jsonify_status_code 201 [("id", PInt 2)])).
  - reflexivity.
  - reflexivity.
Defined.

(** ** Updates *)

Lemma for_fold_raises {A S} (body : S -> A -> result S) (l : list A) (s : S) (x : A) :
  In x l -> (forall s1, exists e, body s1 x = Raise e) ->
  exists e, for_fold body l s = Raise e.
Proof.
  revert s. induction l as [|a l IH]; intros s Hin Hx; [destruct Hin|].
  simpl. destruct Hin as [->|Hin].
  - destruct (Hx s) as [e ->]. eauto.
  - destruct (body s a); eauto.
Qed.

Lemma filter_all {A} (f : A -> bool) (l : list A) :
  (forall x, In x l -> f x = true) -> List.filter f l = l.
Proof.
  induction l as [|a l IH]; simpl; [done|].
  intros Hall. rewrite (Hall a); [|by left]. f_equal. apply IH.
  intros x Hx. apply Hall. by right.
Qed.

Section Updates.
Context {lib : Library} {sto : Storage}.
Variable model : Model.

Lemma update_relation_done (query : targets) (params : pyval) (fields x : list string)
  (col : string) (st st' : Store) :
  API.update_relation model query params fields col st = (Done x, st') ->
  x = fields ++ [col]
  /\ exists t, related_class (get_columns model) col = Ok t.
Proof.
  unfold API.update_relation, bind at 1, lift at 1.
  destruct (related_class (get_columns model) col) as [submodel|e]; [|discriminate].
  unfold bind at 1, lift at 1.
  destruct (py_getitem params col) as [from_request|e]; [|discriminate].
  unfold bind at 1, lift at 1.
  destruct (let! a := py_get from_request "add" (PList []) in py_iter a)%result
    as [adds|e]; [|discriminate].
  unfold bind at 1.
  destruct (for_M (API.add_entry model col submodel query) adds st) as [[[]|e|c] s1];
    [|discriminate|discriminate].
  unfold bind at 1, lift at 1.
  destruct (let! r := py_get from_request "remove" (PList []) in py_iter r)%result
    as [removes|e]; [|discriminate].
  unfold bind at 1.
  destruct (for_M (API.remove_entry model col submodel query) removes s1)
    as [[[]|e|c] s2]; [|discriminate|discriminate].
  unfold ret. intros [= <- <-]. eauto.
Qed.

Lemma fold_update_relation_done (query : targets) (params : pyval)
  (l fields x : list string) (st st' : Store) :
  fold_M (API.update_relation model query params) l fields st = (Done x, st') ->
  x = fields ++ l
  /\ forall c, In c l -> exists t, related_class (get_columns model) c = Ok t.
Proof.
  revert fields st. induction l as [|col l IH]; intros fields st; simpl.
  - unfold ret. intros [= <- <-]. by rewrite app_nil_r.
  - unfold bind.
    destruct (API.update_relation model query params fields col st)
      as [[y|e|c] s1] eqn:Hstep; [|discriminate|discriminate].
    apply update_relation_done in Hstep as [-> Hcol].
    intros Hrest. apply IH in Hrest as [-> Hall]. split.
    + by rewrite <- app_assoc.
    + intros c [<-|Hin]; auto.
Qed.

(** The relations [_update_relations] reports are relationship attributes
    of the model that the request names. *)
Lemma update_relations_done (query : targets) (d : pydict) (x : list string)
  (st st' : Store) :
  API._update_relations model query (PDict d) st = (Done x, st') ->
  forall c, In c x ->
            In c (dict_keys d) /\ exists t, column c (get_columns model) = Some (Relation t).
Proof.
  unfold API._update_relations, bind, lift. simpl py_keys. cbv iota.
  intros Hfold. apply fold_update_relation_done in Hfold as [-> Hall].
  intros c Hc. simpl in Hc. split.
  - apply filter_In in Hc as [_ Hc]. by apply mem_In.
  - destruct (Hall c Hc) as [t Ht]. exists t. unfold related_class in Ht.
    destruct (column c (get_columns model)) as [[ty|t']|]; congruence.
Qed.

Lemma convert_dates_columns (orig params : pydict) (k : string) :
  API.convert_dates model orig = Ok params ->
  In k (map fst orig) ->
  exists ty, column k (get_columns model) = Some (Scalar ty).
Proof.
  intros Hconv Hin. apply in_map_iff in Hin as ([k' v] & <- & Hin).
  destruct (for_fold_Ok_inv _ _ _ _ _ Hconv Hin) as (s1 & s2 & Hbody).
  simpl in Hbody. unfold column_type in Hbody. simpl.
  destruct (column k' (get_columns model)) as [[ty|t]|]; simpl in Hbody;
    try discriminate. eauto.
Qed.

Lemma select_fields_keys (data : pyval) (l : list string) (orig : pydict) (k : string) :
  API.select_fields data l = Ok orig -> In k l -> In k (map fst orig).
Proof.
  unfold API.select_fields.
  destruct (for_each _ l) as [pairs|e] eqn:Hpairs; [|discriminate].
  simpl. intros [= <-] Hin. apply dict_of_pairs_keys.
  apply for_each_Forall2 in Hpairs.
  induction Hpairs as [|x [k' v] l pairs Hx Hrest IH]; [destruct Hin|].
  simpl. destruct Hin as [->|Hin]; [|right; by apply IH].
  left. destruct (py_getitem data k); simpl in Hx; congruence.
Qed.

(** The keys left after the relations are taken out resolve to scalar
    columns once the date conversion has gone through. *)
Lemma update_keys_resolve (d orig params : pydict) (fields : list string)
  (st1 st2 : Store) (query : targets) (k : string) :
  API._update_relations model query (PDict d) st1 = (Done fields, st2) ->
  API.select_fields (PDict d)
    (symmetric_difference (dict_keys d) (unique fields)) = Ok orig ->
  API.convert_dates model orig = Ok params ->
  In k (dict_keys d) ->
  column k (get_columns model) <> None.
Proof.
  intros Hup Hsel Hconv Hk.
  destruct (mem k (unique fields)) eqn:Hm.
  - apply mem_In, unique_In in Hm.
    destruct (update_relations_done _ _ _ _ _ Hup k Hm) as (_ & t & ->). done.
  - assert (Hin : In k (symmetric_difference (dict_keys d) (unique fields))).
    { unfold symmetric_difference. apply in_or_app. left. apply filter_In.
      by rewrite Hm. }
    destruct (convert_dates_columns _ _ k Hconv (select_fields_keys _ _ _ _ Hsel Hin))
      as [ty ->]. done.
Qed.

(** X15.  A PATCH, to one instance or to the collection, that comes back
    with a response for a non-empty body object has a body whose every key
    is a column or relation of the model.  In particular the keys of a
    search descriptor ([filters], [limit], ...) make the PATCH to the
    collection fail unless the model has attributes of those names: its
    body is read both as the descriptor and as the values to set. *)
Theorem patch_keys_are_attributes (request : Request) (d : pydict)
  (instid : option Z) (st st' : Store) (r : Response) :
  json_loads (data request) = Ok (PDict d) ->
  d <> [] ->
  API.patch model request instid st = (Done r, st') ->
  forall k, In k (dict_keys d) -> column k (get_columns model) <> None.
Proof.
  intros Hdata Hd Hpatch k Hk. revert Hpatch.
  assert (Hlen : (Z.of_nat (length (dict_keys d)) =? 0) = false).
  { apply Z.eqb_neq. destruct d as [|[k0 v0] d']; [done|simpl; lia]. }
  destruct instid as [id|]; unfold API.patch; [|unfold API._patch_many];
    rewrite Hdata.
  - unfold bind at 1, lift at 1. simpl py_len. cbv iota. rewrite Hlen.
    unfold bind at 1, read at 1. unfold bind at 1.
    destruct (API._update_relations model _ (PDict d) st) as [[fields|e|c] s1] eqn:Hup;
      [|discriminate|discriminate].
    unfold bind at 1, lift at 1. simpl py_keys. cbv iota.
    unfold bind at 1, lift at 1.
    destruct (API.select_fields (PDict d) _) as [orig|e] eqn:Hsel; [|discriminate].
    unfold bind at 1, lift at 1.
    destruct (API.convert_dates model orig) as [params|e] eqn:Hconv; [|discriminate].
    intros _. exact (update_keys_resolve _ _ _ _ _ _ _ k Hup Hsel Hconv Hk).
  - unfold bind at 1, lift at 1.
    destruct (create_query model (Value (PDict d))) as [q|e]; [|discriminate].
    unfold bind at 1, lift at 1. simpl py_len. cbv iota. rewrite Hlen.
    unfold bind at 1.
    destruct (API._update_relations model _ (PDict d) st) as [[fields|e|c] s1] eqn:Hup;
      [|discriminate|discriminate].
    unfold bind at 1, lift at 1. simpl py_keys. cbv iota.
    unfold bind at 1, lift at 1.
    destruct (API.select_fields (PDict d) _) as [orig|e] eqn:Hsel; [|discriminate].
    unfold bind at 1, lift at 1.
    destruct (API.convert_dates model orig) as [params|e] eqn:Hconv; [|discriminate].
    intros _. exact (update_keys_resolve _ _ _ _ _ _ _ k Hup Hsel Hconv Hk).
Qed.

(** X16.  A PATCH whose body object names no relation of the model but has
    a key that is not a scalar column of it ends in an uncaught exception
    with the session exactly as it was: nothing is assigned, not even the
    keys that are columns. *)
Theorem patch_unknown_field_changes_nothing (request : Request) (d : pydict)
  (instid : option Z) (st : Store) (k : string) (e0 : pyexn) :
  json_loads (data request) = Ok (PDict d) ->
  (forall r, In r (get_relations model) -> ~ In r (dict_keys d)) ->
  In k (dict_keys d) ->
  column_type model k = Raise e0 ->
  exists e, API.patch model request instid st = (Raised e, st).
Proof.
  intros Hdata Hrel Hk Hty.
  assert (Hlen : (Z.of_nat (length (dict_keys d)) =? 0) = false).
  { apply Z.eqb_neq. destruct (dict_keys d); [destruct Hk|simpl; lia]. }
  assert (Hup : forall query, API._update_relations model query (PDict d) st
                              = (Done [], st)).
  { intros query. unfold API._update_relations, bind, lift. simpl py_keys. cbv iota.
    rewrite (filter_none (fun r => mem r (dict_keys d))); [done|].
    intros r Hr. apply unique_In in Hr.
    destruct (mem r (dict_keys d)) eqn:Hm; [|done].
    apply mem_In in Hm. destruct (Hrel r Hr Hm). }
  assert (Hlist : symmetric_difference (dict_keys d) (unique []) = dict_keys d).
  { unfold symmetric_difference. simpl. rewrite app_nil_r. by apply filter_all. }
  assert (Hconv : exists e,
             API.convert_dates model
               (dict_of_pairs (map (fun k => (k, dict_get d k PNone)) (dict_keys d)))
             = Raise e).
  { assert (Hin : In k (map fst (dict_of_pairs
                                   (map (fun k => (k, dict_get d k PNone)) (dict_keys d))))).
    { apply dict_of_pairs_keys. rewrite map_map. simpl. by rewrite map_id. }
    apply in_map_iff in Hin as ([k' v] & Hk' & Hin). simpl in Hk'. subst k'.
    apply (for_fold_raises _ _ _ (k, v) Hin).
    intros s1. simpl. rewrite Hty. simpl. eauto. }
  destruct Hconv as [e He].
  destruct instid as [id|]; unfold API.patch; [|unfold API._patch_many];
    rewrite Hdata.
  - exists e. unfold bind at 1, lift at 1. simpl py_len. cbv iota. rewrite Hlen.
    unfold bind at 1, read at 1. unfold bind at 1. rewrite Hup.
    unfold bind at 1, lift at 1. simpl py_keys. cbv iota. rewrite Hlist.
    unfold bind at 1, lift at 1. rewrite select_fields_present; [|done].
    unfold bind at 1, lift at 1. by rewrite He.
  - unfold bind at 1, lift at 1.
    destruct (create_query model (Value (PDict d))) as [q|e']; [|eauto].
    exists e. unfold bind at 1, lift at 1. simpl py_len. cbv iota. rewrite Hlen.
    unfold bind at 1. rewrite Hup.
    unfold bind at 1, lift at 1. simpl py_keys. cbv iota. rewrite Hlist.
    unfold bind at 1, lift at 1. rewrite select_fields_present; [|done].
    unfold bind at 1, lift at 1. by rewrite He.
Qed.
End Updates.

Lemma patch_keys_are_attributes_witness :
  column "age" (get_columns Sample.Person) <> None.
Proof.
  apply (patch_keys_are_attributes (lib := Sample.library) (sto := Sample.storage)
           Sample.Person (mkRequest None (Sample.json "{'age': 3}")) [("age", PInt 3)]
           (Some 1) Sample.mary
           (<[("Person", 1) := mkEntity 1 [("id", PInt 1); ("name", PUnicode "Mary");
                                           ("age", PInt 3)] []]> Sample.mary)
           (jsonify [("id", PInt 1); ("name", PUnicode "Mary"); ("age", PInt 3);
                     ("computers", PList [])])).
  - reflexivity.
  - discriminate.
  - vm_compute. reflexivity.
  - simpl. left. reflexivity.
Defined.

Lemma patch_unknown_field_changes_nothing_witness :
  exists e,
    API.patch (lib := Sample.library) (sto := Sample.storage) Sample.Person
      (mkRequest None (Sample.json "{'age': 3, 'filters': []}")) None
      Sample.mary_and_lincoln
    = (Raised e, Sample.mary_and_lincoln).
Proof.
  apply (patch_unknown_field_changes_nothing (lib := Sample.library)
           (sto := Sample.storage) Sample.Person
           (mkRequest None (Sample.json "{'age': 3, 'filters': []}"))
           [("age", PInt 3); ("filters", PList [])] None Sample.mary_and_lincoln
           "filters" (AttributeError "type object 'Person' has no attribute 'filters'")).
  - reflexivity.
  - intros r [<-|[]]. simpl. intros [Heq|[Heq|[]]]; discriminate.
  - simpl. right. left. reflexivity.
  - reflexivity.
Defined.

(** ** Function evaluation *)

Lemma zip_keys {A B} (a : list A) (b : list B) (k : A) :
  In k (map fst (zip a b)) -> In k a.
Proof.
  revert b. induction a as [|x a IH]; intros [|y b]; simpl; try done.
  intros [<-|Hin]; eauto.
Qed.

Lemma Forall2_In_r {A B} (P : A -> B -> Prop) (l : list A) (l' : list B) (y : B) :
  Forall2 P l l' -> In y l' -> exists x, In x l /\ P x y.
Proof.
  induction 1 as [|x y' l l' Hxy Hrest IH]; simpl; [done|].
  intros [<-|Hin]; [eauto|]. destruct (IH Hin) as (x' & Hx' & HP). eauto.
Qed.

(** X17.  Every key of the mapping [_evaluate_functions] returns is
    [<name>__<field>] for one of the requested calls, whose field is an
    attribute of the model: the result never has a key that was not asked
    for. *)
Theorem evaluate_functions_keys {sto : Storage} (st : Store) (model : Model)
  (functions : list Function.t) (m : pydict) (k : string) :
  _evaluate_functions st model functions = Ok (PDict m) ->
  In k (map fst m) ->
  exists f n fl,
    In f functions
    /\ as_text (Function.name f) = Some n
    /\ getattr_model model (Function.field f) = Ok fl
    /\ k = n +:+ "__" +:+ fl.
Proof.
  unfold _evaluate_functions.
  destruct (for_each (function_call model) functions) as [calls|e] eqn:Hcalls;
    [|discriminate].
  simpl. destruct (one _) as [row|e]; [|discriminate].
  simpl. intros [= <-] Hk.
  apply dict_of_pairs_keys, zip_keys, in_map_iff in Hk as ([call key] & Hkey & Hin).
  simpl in Hkey. subst key.
  apply for_each_Forall2 in Hcalls.
  destruct (Forall2_In_r _ _ _ _ Hcalls Hin) as (f & Hf & Hcall).
  unfold function_call in Hcall.
  destruct (as_text (Function.name f)) as [n|] eqn:Hn; [|discriminate].
  destruct (getattr_model model (Function.field f)) as [fl|e] eqn:Hfl; [|discriminate].
  simpl in Hcall. injection Hcall as _ <-. exists f, n, fl. done.
Qed.

Lemma evaluate_functions_keys_witness :
  exists f n fl,
    In f [Function.mk (PUnicode "count") (PUnicode "id")]
    /\ as_text (Function.name f) = Some n
    /\ getattr_model Sample.Person (Function.field f) = Ok fl
    /\ "count__id" = n +:+ "__" +:+ fl.
Proof.
  apply (evaluate_functions_keys (sto := Sample.storage) Sample.mary_and_lincoln
           Sample.Person [Function.mk (PUnicode "count") (PUnicode "id")]
           [("count__id", PInt 2)] "count__id").
  - reflexivity.
  - simpl. left. reflexivity.
Defined.

(** ** Routes *)

(** X18.  Whatever list of methods [create_api] is given, a method served
    by one of the three rules is one of the given methods and one of GET,
    POST, PATCH and DELETE; POST is served only on the collection pattern
    without an [instid]; DELETE only on the instance pattern; GET and PATCH
    on the collection pattern with [instid] defaulting to [None] and on the
    instance pattern. *)
Theorem create_api_rules (model : Model) (methods : list string) (url_prefix : string)
  (r : APIManager.Rule) (m : string) :
  In r (APIManager.rules (APIManager.create_api model methods url_prefix)) ->
  m ∈ APIManager.methods r ->
  In m methods
  /\ (m = "POST"
      /\ APIManager.rule r = "/" +:+ model_name model
      /\ APIManager.defaults r = None
      \/ m = "DELETE"
         /\ APIManager.rule r = ("/" +:+ model_name model) +:+ "/<int:instid>"
      \/ (m = "GET" \/ m = "PATCH")
         /\ (APIManager.rule r = "/" +:+ model_name model
             /\ APIManager.defaults r = Some PNone
             \/ APIManager.rule r = ("/" +:+ model_name model) +:+ "/<int:instid>")).
Proof.
  unfold APIManager.create_api. simpl.
  intros [<-|[<-|[<-|[]]]]; simpl; intros Hm;
    apply elem_of_intersection in Hm as [Hin Hm];
    apply elem_of_list_to_set, list_elem_of_In in Hin;
    (split; [done|]).
  - apply elem_of_singleton in Hm as ->. left. done.
  - apply elem_of_union in Hm as [Hm|Hm]; apply elem_of_singleton in Hm as ->;
      right; right; split; auto.
  - apply elem_of_union in Hm as [Hm|Hm];
      [apply elem_of_union in Hm as [Hm|Hm]|];
      apply elem_of_singleton in Hm as ->.
    + right; right; split; auto.
    + right; right; split; auto.
    + right; left. done.
Qed.

Lemma create_api_rules_witness :
  In "DELETE" ["GET"; "DELETE"]
  /\ ("DELETE" = "POST"
      /\ "/Person/<int:instid>" = "/" +:+ model_name Sample.Person
      /\ @None pyval = None
      \/ "DELETE" = "DELETE"
         /\ "/Person/<int:instid>" = ("/" +:+ model_name Sample.Person) +:+ "/<int:instid>"
      \/ ("DELETE" = "GET" \/ "DELETE" = "PATCH")
         /\ ("/Person/<int:instid>" = "/" +:+ model_name Sample.Person
             /\ @None pyval = Some PNone
             \/ "/Person/<int:instid>"
                = ("/" +:+ model_name Sample.Person) +:+ "/<int:instid>")).
Proof.
  apply (create_api_rules Sample.Person ["GET"; "DELETE"] "/api"
           (APIManager.mkRule "/Person/<int:instid>" None
              (list_to_set ["GET"; "DELETE"] ∩ ({["GET"]} ∪ {["PATCH"]} ∪ {["DELETE"]})))
           "DELETE").
  - simpl. right. right. left. reflexivity.
  - apply (bool_decide_unpack _). vm_compute. exact I.
Defined.

Lemma get_keeps_session {lib : Library} {sto : Storage}
  (model : Model) (request : Request) (instid : option Z) (st st' : Store)
  (o : outcome Response) :
  API.get model request instid st = (o, st') -> st' = st.
Proof.
  destruct instid as [id|]; unfold API.get.
  - unfold bind, read, abort.
    destruct (get_by_id st (model_name model) (PInt id)); by intros [= <- <-].
  - unfold API._search.
    destruct (json_loads (default "{}" (args_q request))) as [data|e].
    + unfold bind, lift.
      destruct (py_contains "functions" data) as [[|]|e]; [| |by intros [= <- <-]].
      * destruct (py_getitem data "functions") as [items|e]; [|by intros [= <- <-]].
        destruct (py_iter items) as [fs|e]; [|by intros [= <- <-]].
        destruct (for_each Function.new fs) as [functions|e]; [|by intros [= <- <-]].
        unfold run, lift.
        destruct (_evaluate_functions st model functions) as [[]|e];
          unfold API.respond, ret, raise; by intros [= <- <-].
      * destruct (let! searchparams := SearchParameters.from_dictionary data in
                  search st model searchparams)%result as [[]|[]];
          unfold API.respond, ret, raise; by intros [= <- <-].
    + destruct (is_decode_error e); unfold ret, raise; by intros [= <- <-].
Qed.

Lemma route_served (rs : list APIManager.Rule) (method : string)
  (t : APIManager.target) (values : option pyval) :
  APIManager.route rs method t = Some values ->
  exists r, In r rs /\ method ∈ APIManager.methods r.
Proof.
  induction rs as [|r rs IH]; simpl; [done|].
  destruct (APIManager.rule_values r t) as [v|].
  - destruct (bool_decide (method ∈ APIManager.methods r)) eqn:Hm.
    + intros _. exists r. split; [by left|]. by apply bool_decide_eq_true in Hm.
    + intros Hrest. destruct (IH Hrest) as (r' & Hin & Hr'). eauto.
  - intros Hrest. destruct (IH Hrest) as (r' & Hin & Hr'). eauto.
Qed.

(** X19.  With the default method list of [create_api] (GET only) the
    interface is read-only: whatever method and path a request has, and
    however it ends, the session is left exactly as it was. *)
Theorem get_only_api_is_read_only {lib : Library} {sto : Storage}
  (model : Model) (url_prefix : string) (request : Request) (method : string)
  (t : APIManager.target) (st st' : Store) (o : outcome Response) :
  APIManager.serve model (APIManager.create_api model ["GET"] url_prefix)
    request method t st = (o, st') ->
  st' = st.
Proof.
  unfold APIManager.serve.
  destruct (APIManager.route _ method t) as [values|] eqn:Hroute.
  - apply route_served in Hroute as (r & Hin & Hm).
    assert (Hget : method = "GET").
    { unfold APIManager.create_api in Hin. simpl in Hin.
      destruct Hin as [<-|[<-|[<-|[]]]]; simpl in Hm;
        apply elem_of_intersection in Hm as [Hm _];
        (apply elem_of_union in Hm as [Hm|Hm];
         [by apply elem_of_singleton in Hm|by apply elem_of_empty in Hm]). }
    subst method. unfold APIManager.view. simpl String.eqb. cbv iota.
    destruct values as [v|]; [apply get_keeps_session|].
    unfold raise. by intros [= <- <-].
  - destruct (existsb _ _); unfold abort; by intros [= <- <-].
Qed.

Lemma get_only_api_is_read_only_witness :
  Sample.mary = Sample.mary.
Proof.
  exact (get_only_api_is_read_only (lib := Sample.library) (sto := Sample.storage)
           Sample.Person "/api" (mkRequest None EmptyString) "DELETE"
           (APIManager.Instance "Person" 1) Sample.mary Sample.mary (Aborted 405)
           eq_refl).
Defined.

Lemma append_not_self (s t : string) : t <> EmptyString -> String.eqb (s +:+ t) s = false.
Proof.
  intros Ht. apply String.eqb_neq. intros Heq.
  assert (Hlen : String.length (s +:+ t) = String.length s) by (by rewrite Heq).
  assert (Happ : forall a b, String.length (a +:+ b)
                             = (String.length a + String.length b)%nat).
  { induction a as [|c a IH]; intros b; [done|].
    change (S (String.length (a +:+ b)) = S (String.length a + String.length b)).
    by rewrite IH. }
  rewrite Happ in Hlen. destruct t; [done|]. simpl in Hlen. lia.
Qed.

(** X20.  Whatever methods are registered, a DELETE addressed to the
    collection of the model and a POST addressed to one of its instances
    reach no handler: both are answered 405 and the session is left as it
    was. *)
Theorem method_on_wrong_path_is_405 {lib : Library} {sto : Storage}
  (model : Model) (methods : list string) (url_prefix : string) (request : Request)
  (instid : Z) (st : Store) :
  APIManager.serve model (APIManager.create_api model methods url_prefix)
    request "DELETE" (APIManager.Collection (model_name model)) st
  = (Aborted 405, st)
  /\ APIManager.serve model (APIManager.create_api model methods url_prefix)
       request "POST" (APIManager.Instance (model_name model) instid) st
     = (Aborted 405, st).
Proof.
  assert (Hno : forall (m : string) (X Y : gset string),
             m ∉ Y -> bool_decide (m ∈ X ∩ Y) = false).
  { intros m X Y Hm. apply bool_decide_eq_false. intros Hin.
    apply elem_of_intersection in Hin as [_ Hin]. done. }
  assert (Hself : String.eqb ("/" +:+ model_name model) ("/" +:+ model_name model)
                  = true) by apply String.eqb_refl.
  assert (Hlong : String.eqb (("/" +:+ model_name model) +:+ "/<int:instid>")
                             ("/" +:+ model_name model) = false)
    by by apply append_not_self.
  assert (Hshort : String.eqb ("/" +:+ model_name model)
                              (("/" +:+ model_name model) +:+ "/<int:instid>") = false)
    by by rewrite String.eqb_sym.
  split; unfold APIManager.serve, APIManager.create_api, APIManager.route,
           APIManager.rule_values; cbn [APIManager.rules APIManager.rule
                                          APIManager.defaults APIManager.methods existsb].
  - rewrite Hself, Hlong. rewrite !Hno; [done| |].
    + intros Hm. apply elem_of_union in Hm as [Hm|Hm];
        apply elem_of_singleton in Hm; discriminate.
    + intros Hm. apply elem_of_singleton in Hm. discriminate.
  - change ("/" +:+ model_name model +:+ "/<int:instid>")
      with (("/" +:+ model_name model) +:+ "/<int:instid>").
    rewrite Hshort, String.eqb_refl. rewrite Hno; [done|].
    intros Hm. apply elem_of_union in Hm as [Hm|Hm];
      [apply elem_of_union in Hm as [Hm|Hm]|];
      apply elem_of_singleton in Hm; discriminate.
Qed.

(** ** What an update stores *)

Lemma assoc_absent (k : string) (d : pydict) :
  ~ In k (dict_keys d) -> assoc k d = None.
Proof.
  intros Hk. destruct (assoc k d) as [v|] eqn:Hv; [|done].
  destruct Hk. apply dict_keys_assoc. eauto.
Qed.

(** A body without any of the descriptor's keys builds the bare query. *)
Lemma create_query_without_descriptor {lib : Library} (model : Model) (d : pydict) :
  (forall key, In key ["filters"; "functions"; "order_by"; "type"; "limit"; "offset"] ->
               ~ In key (dict_keys d)) ->
  create_query model (Value (PDict d)) = Ok (QModel (model_name model)).
Proof.
  intros Hkeys.
  assert (Hget : forall key default,
             In key ["filters"; "functions"; "order_by"; "type"; "limit"; "offset"] ->
             dict_get d key default = default).
  { intros key default Hin. unfold dict_get. by rewrite (assoc_absent _ _ (Hkeys _ Hin)). }
  unfold create_query, SearchParameters.from_dictionary, py_get.
  rewrite !Hget by (simpl; tauto). reflexivity.
Qed.

Section Stored.
Context {lib : Library} {sto : Storage}.
Variable model : Model.

(** X21.  A PATCH to the collection whose body object names no relation
    and none of the descriptor's keys runs one bulk update: on the bare
    query of the model, that is on every row, with the body's values after
    the date conversion; the answer is 200 with the number of rows the
    update reports. *)
Theorem patch_many_updates_every_row (request : Request) (d params : pydict)
  (n : Z) (st st' : Store) :
  json_loads (data request) = Ok (PDict d) ->
  (forall r, In r (get_relations model) -> ~ In r (dict_keys d)) ->
  (forall key, In key ["filters"; "functions"; "order_by"; "type"; "limit"; "offset"] ->
               ~ In key (dict_keys d)) ->
  API.convert_dates model
    (dict_of_pairs (map (fun k => (k, dict_get d k PNone)) (dict_keys d))) = Ok params ->
  params <> [] ->
  query_update st (QModel (model_name model)) params = (Ok n, st') ->
  API.patch model request None st
  = (Done (jsonify [("num_modified", PInt n)]), st').
Proof.
  intros Hdata Hrel Hdesc Hconv Hparams Hupdate.
  assert (Hd : dict_keys d <> []).
  { intros Hnil. rewrite Hnil in Hconv. simpl in Hconv. injection Hconv as <-. done. }
  assert (Hlen : (Z.of_nat (length (dict_keys d)) =? 0) = false).
  { apply Z.eqb_neq. destruct (dict_keys d); [done|simpl; lia]. }
  unfold API.patch, API._patch_many. rewrite Hdata.
  unfold bind at 1, lift at 1. rewrite (create_query_without_descriptor _ _ Hdesc).
  unfold bind at 1, lift at 1. simpl py_len. cbv iota. rewrite Hlen.
  unfold bind at 1.
  assert (Hup : API._update_relations model (Queried (QModel (model_name model)))
                  (PDict d) st = (Done [], st)).
  { unfold API._update_relations, bind, lift. simpl py_keys. cbv iota.
    rewrite (filter_none (fun r => mem r (dict_keys d))); [done|].
    intros r Hr. apply unique_In in Hr.
    destruct (mem r (dict_keys d)) eqn:Hm; [|done].
    apply mem_In in Hm. destruct (Hrel r Hr Hm). }
  rewrite Hup.
  unfold bind at 1, lift at 1. simpl py_keys. cbv iota.
  assert (Hlist : symmetric_difference (dict_keys d) (unique []) = dict_keys d).
  { unfold symmetric_difference. simpl. rewrite app_nil_r. by apply filter_all. }
  rewrite Hlist.
  unfold bind at 1, lift at 1. rewrite select_fields_present; [|done].
  unfold bind at 1, lift at 1. rewrite Hconv.
  destruct params as [|p params]; [done|].
  unfold bind, run, ret, lift. change (nonempty (p :: params)) with true.
  cbv beta iota. by rewrite Hupdate.
Qed.

(** X22.  A PATCH of one scalar column of an existing instance.  For a
    column other than the key [id] the value stored is the body's value, or
    what [dateutil] parses from it when the column is a date or datetime;
    the instance's other attributes and its relations stay, and the answer
    is the serialization of the instance after the change.  For the key
    [id] and another integer the row moves to the new key if no row holds
    it, and the final retrieval, which still looks under the id of the
    URL, aborts with 404; if a row holds the new key the commit fails and
    the session stays as it was. *)
Theorem patch_one_sets_column (request : Request) (k : string) (v w : pyval)
  (ty : coltype) (instid : Z) (e : Entity) (st : Store) :
  json_loads (data request) = Ok (PDict [(k, v)]) ->
  ~ In k (get_relations model) ->
  column k (get_columns model) = Some (Scalar ty) ->
  (if is_date ty then parse_datetime v else Ok v) = Ok w ->
  st !! (model_name model, instid) = Some e ->
  (k <> "id" ->
   let e' := mkEntity (ent_id e) (dict_set k w (ent_fields e)) (ent_related e) in
   let st' := <[(model_name model, instid) := e']> st in
   API.patch model request (Some instid) st
   = (Done (jsonify (to_dict st' (model_name model) e' (unique (get_relations model)))),
      st'))
  /\ (forall z, k = "id" -> w = PInt z -> z <> instid ->
         st !! (model_name model, z) = None ->
         exists st',
           API.patch model request (Some instid) st = (Aborted 404, st')
           /\ st' !! (model_name model, instid) = None
           /\ st' !! (model_name model, z)
              = Some (mkEntity z (dict_set "id" (PInt z) (ent_fields e)) (ent_related e)))
  /\ (forall z, k = "id" -> w = PInt z -> z <> instid ->
         st !! (model_name model, z) <> None ->
         exists x, API.patch model request (Some instid) st = (Raised x, st)).
Proof.
  intros Hdata Hrel Hcol Hval Hst.
  assert (Hup : API._update_relations model (Listed [Some instid]) (PDict [(k, v)]) st
                = (Done [], st)).
  { unfold API._update_relations, bind, lift. simpl py_keys. cbv iota.
    rewrite (filter_none (fun r => mem r [k])); [done|].
    intros r Hr. apply unique_In in Hr.
    destruct (mem r [k]) eqn:Hm; [|done].
    apply mem_In in Hm. destruct Hm as [->|[]]. done. }
  assert (Hconv : API.convert_dates model [(k, v)] = Ok [(k, w)]).
  { unfold API.convert_dates, column_type. simpl. rewrite Hcol. simpl.
    destruct (is_date ty); [|by injection Hval as ->].
    rewrite Hval. reflexivity. }
  assert (Hpatch : API.patch model request (Some instid) st
                   = (let! inst := API.setattr (Some (instid, e)) k w in
                      do! API.commit_instance model instid inst in
                      API.get model request (Some instid))%M st).
  { unfold API.patch. rewrite Hdata.
    unfold bind at 1, lift at 1. simpl py_len. cbv iota.
    change (Z.of_nat 1 =? 0) with false. cbv iota.
    unfold bind at 1, read at 1. unfold get_by_id at 1. rewrite Hst. simpl option_map.
    unfold bind at 1. rewrite Hup.
    unfold bind at 1, lift at 1. simpl py_keys. cbv iota.
    unfold symmetric_difference. simpl List.filter. simpl app.
    unfold bind at 1, lift at 1.
    assert (Hsel : API.select_fields (PDict [(k, v)]) [k] = Ok [(k, v)]).
    { unfold API.select_fields. simpl. by rewrite String.eqb_refl. }
    rewrite Hsel.
    unfold bind at 1, lift at 1. rewrite Hconv.
    unfold bind at 1, read at 1. unfold get_by_id at 1. rewrite Hst. simpl option_map.
    simpl fold_M. unfold bind at 1, bind at 1, bind at 1, lift at 1.
    simpl py_getitem. rewrite String.eqb_refl.
    unfold bind, ret, API.setattr, raise.
    destruct (String.eqb k "id");
      [destruct (match w with PInt z => Some z | _ => key_of w end)|]; reflexivity. }
  rewrite Hpatch. clear Hpatch. split; [|split].
  - intros Hk e' st'.
    assert (Hl : st' !! (model_name model, instid) = Some e')
      by apply lookup_insert_eq.
    unfold API.setattr. apply String.eqb_neq in Hk. rewrite Hk.
    unfold bind, ret, API.commit_instance. rewrite Z.eqb_refl.
    fold e'. fold st'.
    unfold API.get, bind, read, get_by_id. by rewrite Hl.
  - intros z -> -> Hz Hfree.
    set (e' := mkEntity z (dict_set "id" (PInt z) (ent_fields e)) (ent_related e)).
    set (st' := <[(model_name model, z) := e']>
                  (base.delete (model_name model, instid)
                     (on_rekey st (model_name model) instid z))).
    assert (Hold : st' !! (model_name model, instid) = None).
    { unfold st', Store in *. rewrite lookup_insert_ne; [|congruence].
      apply lookup_delete_eq. }
    assert (Hnew : st' !! (model_name model, z) = Some e') by apply lookup_insert_eq.
    exists st'. split; [|done].
    unfold API.setattr. simpl String.eqb. cbv iota.
    unfold bind, ret, API.commit_instance.
    apply Z.eqb_neq in Hz. rewrite Hz, Hfree. fold e'. fold st'.
    unfold API.get, bind, read, get_by_id, abort. by rewrite Hold.
  - intros z -> -> Hz Htaken. eexists.
    unfold API.setattr. simpl String.eqb. cbv iota.
    unfold bind, ret, API.commit_instance.
    apply Z.eqb_neq in Hz. rewrite Hz.
    destruct (st !! (model_name model, z)); [reflexivity|done].
Qed.
End Stored.

Lemma patch_many_updates_every_row_witness :
  fst (API.patch (lib := Sample.library) (sto := Sample.storage) Sample.Person
         (mkRequest None (Sample.json "{'age': 3}")) None Sample.mary_and_lincoln)
  = Done (jsonify [("num_modified", PInt 2)]).
Proof.
  rewrite (patch_many_updates_every_row (lib := Sample.library) (sto := Sample.storage)
             Sample.Person (mkRequest None (Sample.json "{'age': 3}"))
             [("age", PInt 3)] [("age", PInt 3)] 2 Sample.mary_and_lincoln
             (snd (Sample.update_rows Sample.mary_and_lincoln (QModel "Person")
                     [("age", PInt 3)]))).
  - reflexivity.
  - reflexivity.
  - intros r [<-|[]]. simpl. intros [Heq|[]]. discriminate.
  - intros key Hkey Hin. simpl in Hin. destruct Hin as [<-|[]].
    simpl in Hkey. intuition discriminate.
  - reflexivity.
  - discriminate.
  - reflexivity.
Defined.

Lemma patch_one_sets_column_witness :
  fst (API.patch (lib := Sample.library) (sto := Sample.storage) Sample.Person
         (mkRequest None (Sample.json "{'birth_date': '1993-04-05'}")) (Some 1)
         Sample.mary)
  = Done (jsonify [("id", PInt 1); ("name", PUnicode "Mary"); ("age", PInt 19);
                   ("birth_date", PDatetime "1993-04-05"); ("computers", PList [])])
  /\ (exists st',
        API.patch (lib := Sample.library) (sto := Sample.storage) Sample.Person
          (mkRequest None (Sample.json "{'id': 5}")) (Some 1) Sample.mary
        = (Aborted 404, st')
        /\ st' !! ("Person", 1) = None
        /\ st' !! ("Person", 5) = Some (Sample.person 5 "Mary" 19))
  /\ (exists x,
        API.patch (lib := Sample.library) (sto := Sample.storage) Sample.Person
          (mkRequest None (Sample.json "{'id': 2}")) (Some 1) Sample.mary_and_lincoln
        = (Raised x, Sample.mary_and_lincoln)).
Proof.
  split; [|split].
  - rewrite (proj1 (patch_one_sets_column (lib := Sample.library) (sto := Sample.storage)
                      Sample.Person
                      (mkRequest None (Sample.json "{'birth_date': '1993-04-05'}"))
                      "birth_date" (PUnicode "1993-04-05") (PDatetime "1993-04-05")
                      TDate 1 (Sample.person 1 "Mary" 19) Sample.mary
                      eq_refl ltac:(simpl; intros [Heq|[]]; discriminate)
                      eq_refl eq_refl eq_refl)
               ltac:(discriminate)).
    reflexivity.
  - apply (proj1 (proj2 (patch_one_sets_column (lib := Sample.library)
                           (sto := Sample.storage) Sample.Person
                           (mkRequest None (Sample.json "{'id': 5}"))
                           "id" (PInt 5) (PInt 5) TOther 1
                           (Sample.person 1 "Mary" 19) Sample.mary
                           eq_refl ltac:(simpl; intros [Heq|[]]; discriminate)
                           eq_refl eq_refl eq_refl)) 5 eq_refl eq_refl);
      [discriminate|reflexivity].
  - apply (proj2 (proj2 (patch_one_sets_column (lib := Sample.library)
                           (sto := Sample.storage) Sample.Person
                           (mkRequest None (Sample.json "{'id': 2}"))
                           "id" (PInt 2) (PInt 2) TOther 1
                           (Sample.person 1 "Mary" 19) Sample.mary_and_lincoln
                           eq_refl ltac:(simpl; intros [Heq|[]]; discriminate)
                           eq_refl eq_refl eq_refl)) 2 eq_refl eq_refl);
      discriminate.
Defined.

(** ** Ordering clauses *)

(** X23.  An [order_by] entry is an object with a [field] and at most a
    [direction].  Without a direction the clause orders ascending; an entry
    with any other key, or without [field], is a [TypeError]. *)
Theorem order_by_entry (model : Model) (query : Query) (d : pydict) :
  (forall f,
     forallb (fun k => mem k ["field"; "direction"]) (dict_keys d) = true ->
     assoc "field" d = Some (PUnicode f) ->
     assoc "direction" d = None ->
     column f (get_columns model) <> None ->
     (let! o := OrderBy.new (PDict d) in QueryBuilder.order_step model query o)%result
     = Ok (QOrderBy query f Asc))
  /\ (forallb (fun k => mem k ["field"; "direction"]) (dict_keys d) = false
      \/ assoc "field" d = None ->
      exists msg, OrderBy.new (PDict d) = Raise (TypeError msg)).
Proof.
  split.
  - intros f Hkeys Hfield Hdir Hcol.
    unfold OrderBy.new, dict_get. rewrite Hkeys, Hfield, Hdir.
    unfold QueryBuilder.order_step, getattr_model. simpl.
    destruct (column f (get_columns model)); [|done]. reflexivity.
  - unfold OrderBy.new. intros [Hkeys|Hfield].
    + rewrite Hkeys. eauto.
    + rewrite Hfield. destruct (forallb _ _); eauto.
Qed.

Lemma order_by_entry_witness :
  (let! o := OrderBy.new (PDict [("field", PUnicode "age")]) in
   QueryBuilder.order_step Sample.Person (QModel "Person") o)%result
  = Ok (QOrderBy (QModel "Person") "age" Asc)
  /\ exists msg,
       OrderBy.new (PDict [("field", PUnicode "age"); ("dir", PUnicode "desc")])
       = Raise (TypeError msg).
Proof.
  split.
  - apply (proj1 (order_by_entry Sample.Person (QModel "Person")
                    [("field", PUnicode "age")]) "age");
      [reflexivity|reflexivity|reflexivity|discriminate].
  - apply (proj2 (order_by_entry Sample.Person (QModel "Person")
                    [("field", PUnicode "age"); ("dir", PUnicode "desc")])).
    left. reflexivity.
Defined.
